(** * Expense Tracker Pro: a shallow embedding of [main.py]

    The program is a FastMCP server with three tools ([add_expense],
    [list_expenses], [get_summary]) and two resources
    ([expenses://categories], [expenses://summary]) over one SQLite table
    [expenses(id, amount, date, category, subcategory, note)].

    Modelling conventions.
    - Python [str] and SQLite [TEXT] are byte strings ([string]), the
      UTF-8 form of the text; SQLite's BINARY collation is
      [String.compare].  Column widths count characters; [upper] is exact
      on ASCII text and leaves other characters as they are.
    - Python [float] and SQLite [REAL] are IEEE binary64 values
      ([spec_float] at precision 53, exponent bound 1024).
    - Python [int] and SQLite [INTEGER] are [Z]; an [int] bound to a
      [?] has to fit 64 bits, or the binding raises.
    - A handler is a function of the store; an exception is the [Raised]
      outcome carrying [str(e)].
    - The [ctx] argument of [add_expense] only logs; it is left out. *)

From Stdlib Require Import ZArith List String Ascii Bool Lia.
From Stdlib Require Import Floats.SpecFloat DecimalString.
From Stdlib Require Import Sorting.Mergesort Sorting.Sorted Sorting.Permutation.
From Stdlib Require Import Orders Relations.
Import ListNotations.

Open Scope string_scope.
Open Scope Z_scope.

(* ------------------------------------------------------------------ *)
(** ** Python text primitives *)

Module Text.

(** ["c" * n] *)
Fixpoint times (c : string) (n : nat) : string :=
  match n with
  | O => ""
  | S k => c ++ times c k
  end.

(** A byte that continues a UTF-8 character: [10xxxxxx]. *)
Definition is_continuation (c : ascii) : bool :=
  match c with
  | Ascii _ _ _ _ _ _ b6 b7 => (b7 && negb b6)%bool
  end.

(** [len(s)]: the number of characters, one for each byte that does not
    continue a character. *)
Fixpoint chars (s : string) : nat :=
  match s with
  | EmptyString => O
  | String c rest =>
      if is_continuation c then chars rest else S (chars rest)
  end.

(** [format(s, "<w")]: pad on the right with spaces up to [w]
    characters, never truncate. *)
Definition ljust (w : nat) (s : string) : string :=
  s ++ times " " (w - chars s).

(** [sep.join(parts)] *)
Definition join (sep : string) (parts : list string) : string :=
  String.concat sep parts.

(** [str(n)] for an integer. *)
Definition str_int (n : Z) : string :=
  NilZero.string_of_int (Z.to_int n).

Definition upper_char (c : ascii) : ascii :=
  let n := nat_of_ascii c in
  if (Nat.leb 97 n && Nat.leb n 122)%bool then ascii_of_nat (n - 32) else c.

(** [s.upper()] *)
Fixpoint upper (s : string) : string :=
  match s with
  | EmptyString => EmptyString
  | String c rest => String (upper_char c) (upper rest)
  end.

(** Truth value of an [Optional[str]]: [None] and [""] are falsy. *)
Definition truthy (o : option string) : bool :=
  match o with
  | Some (String _ _) => true
  | _ => false
  end.

(** [o or d] *)
Definition or_else (o : option string) (d : string) : string :=
  match o with
  | Some (String c rest) => String c rest
  | _ => d
  end.

(** [needle in hay] *)
Fixpoint contains (needle hay : string) : bool :=
  if String.prefix needle hay then true
  else match hay with
       | EmptyString => false
       | String _ rest => contains needle rest
       end.

End Text.

(* ------------------------------------------------------------------ *)
(** ** binary64 numbers and their [.2f] rendering *)

Module Float.

Definition float := spec_float.

Definition prec : Z := 53.
Definition emax : Z := 1024.

Definition zero : float := S754_zero false.
Definition add : float -> float -> float := SFadd prec emax.
Definition div : float -> float -> float := SFdiv prec emax.
Definition leb : float -> float -> bool := SFleb.
Definition ltb : float -> float -> bool := SFltb.

Definition is_nan (x : float) : bool :=
  match x with
  | S754_nan => true
  | _ => false
  end.

(** [float(n)] *)
Definition of_Z (n : Z) : float := binary_normalize prec emax n 0 false.

(** The decimal literal [n / 100], e.g. [cents 1234] is [12.34]. *)
Definition cents (n : Z) : float := div (of_Z n) (of_Z 100).

(** Nearest integer to [num / den], ties to even ([den > 0]). *)
Definition round_half_even (num den : Z) : Z :=
  let q := num / den in
  let r := num mod den in
  match (2 * r ?= den) with
  | Lt => q
  | Gt => q + 1
  | Eq => if Z.even q then q else q + 1
  end.

(** Hundredths of the magnitude [m * 2^e], correctly rounded. *)
Definition hundredths (m : positive) (e : Z) : Z :=
  if 0 <=? e then Zpos m * 100 * 2 ^ e
  else round_half_even (Zpos m * 100) (2 ^ (- e)).

Definition two_digits (n : Z) : string :=
  if n <? 10 then "0" ++ Text.str_int n else Text.str_int n.

Definition sign (s : bool) : string := if s then "-" else "".

(** [format(x, ".2f")] *)
Definition fmt_2f (x : float) : string :=
  match x with
  | S754_nan => "nan"
  | S754_infinity s => sign s ++ "inf"
  | S754_zero s => sign s ++ "0.00"
  | S754_finite s m e =>
      let h := hundredths m e in
      sign s ++ Text.str_int (h / 100) ++ "." ++ two_digits (h mod 100)
  end.

End Float.

Import Float(float).

(* ------------------------------------------------------------------ *)
(** ** Outcomes and the store monad *)

(** What a Python call produces: a value, or an exception with its text. *)
Inductive outcome (A : Type) : Type :=
| Returned (a : A)
| Raised (e : string).

Arguments Returned {A} a.
Arguments Raised {A} e.

(** ** The SQLite store *)

Module Sqlite.

(** One row of [expenses]; [None] is SQL NULL. *)
Record Row := mkRow {
  id : Z;
  amount : float;
  date : string;
  category : string;
  subcategory : option string;
  note : option string
}.

(** The database behind [DB_PATH]: it cannot be opened or queried
    ([sqlite3] raises an error with text [err]), or it holds no [expenses]
    table yet, or it holds the table.  [rows] is in rowid order; [seq] is
    the AUTOINCREMENT counter kept in [sqlite_sequence]. *)
Inductive Store :=
| Unavailable (err : string)
| NoTable
| Table (rows : list Row) (seq : Z).

(** A block run inside [with sqlite3.connect(...) as conn]: on an
    exception the connection rolls back, so a failure carries no store. *)
Definition M (A : Type) : Type := Store -> outcome (A * Store).

Definition ret {A} (a : A) : M A := fun db => Returned (a, db).

Definition bind {A B} (m : M A) (k : A -> M B) : M B :=
  fun db =>
    match m db with
    | Returned (a, db') => k a db'
    | Raised e => Raised e
    end.

Definition INT64_MAX : Z := 9223372036854775807.

Definition INT64_MIN : Z := -9223372036854775808.

(** A Python [int] can be bound to a [?] when it is a 64-bit integer. *)
Definition fits_int64 (n : Z) : bool :=
  ((INT64_MIN <=? n) && (n <=? INT64_MAX))%bool.

(** The text of the [OverflowError] raised when it is not. *)
Definition int_too_large : string :=
  "Python int too large to convert to SQLite INTEGER".

Definition no_such_table : string := "no such table: expenses".

Definition max_rowid (rows : list Row) : Z :=
  fold_right (fun r m => Z.max (id r) m) 0 rows.

(** [CREATE TABLE IF NOT EXISTS expenses (...)] *)
Definition create_table_if_not_exists : M unit :=
  fun db =>
    match db with
    | Unavailable e => Raised e
    | NoTable => Returned (tt, Table [] 0)
    | Table _ _ => Returned (tt, db)
    end.

(** [INSERT INTO expenses (amount, date, category, subcategory, note)
    VALUES (?, ?, ?, ?, ?)], returning [cursor.lastrowid].  The id is one
    more than the largest rowid the table ever held (AUTOINCREMENT); a NaN
    is bound as NULL and fails [amount REAL NOT NULL]. *)
Definition insert (a : float) (d c : string) (sub nt : option string)
  : M Z :=
  fun db =>
    match db with
    | Unavailable e => Raised e
    | NoTable => Raised no_such_table
    | Table rows seq =>
        if Float.is_nan a
        then Raised "NOT NULL constraint failed: expenses.amount"
        else
          let last := Z.max seq (max_rowid rows) in
          if INT64_MAX <=? last
          then Raised "database or disk is full"
          else
            let rid := last + 1 in
            Returned (rid, Table (rows ++ [mkRow rid a d c sub nt]) rid)
    end.

(** A [SELECT ... FROM expenses] whose result is [q] of the table. *)
Definition select {A} (q : list Row -> A) : M A :=
  fun db =>
    match db with
    | Unavailable e => Raised e
    | NoTable => Raised no_such_table
    | Table rows _ => Returned (q rows, db)
    end.

(** A [SELECT ... FROM expenses ... ?] with an integer parameter [n]:
    the statement is prepared first, then [n] is bound. *)
Definition select_with_int {A} (n : Z) (q : list Row -> A) : M A :=
  fun db =>
    match db with
    | Unavailable e => Raised e
    | NoTable => Raised no_such_table
    | Table rows _ =>
        if fits_int64 n then Returned (q rows, db) else Raised int_too_large
    end.

(** *** WHERE clauses *)

(** One [" AND <column> <op> ?"] fragment with its bound parameter. *)
Inductive Cond :=
| CategoryEq (v : string)
| DateGe (v : string)
| DateLe (v : string).

Definition holds (r : Row) (c : Cond) : bool :=
  match c with
  | CategoryEq v => String.eqb (category r) v
  | DateGe v => String.leb v (date r)
  | DateLe v => String.leb (date r) v
  end.

(** [WHERE 1=1 AND c1 AND c2 ...] *)
Definition where_ (cs : list Cond) (r : Row) : bool :=
  forallb (holds r) cs.

(** *** ORDER BY date DESC, id DESC *)

Module DateIdDesc <: TotalLeBool.
Definition t := Row.
Definition leb (a b : Row) : bool :=
  match String.compare (date a) (date b) with
  | Gt => true
  | Lt => false
  | Eq => id b <=? id a
  end.
Lemma leb_total : forall a b, leb a b = true \/ leb b a = true.
Proof.
  intros a b. unfold leb.
  rewrite (String.compare_antisym (date a) (date b)).
  destruct (String.compare (date b) (date a)); simpl; auto.
  destruct (Z.leb_spec (id b) (id a)); auto.
  right. apply Z.leb_le. lia.
Qed.
End DateIdDesc.

Module RowSort := Sort DateIdDesc.

Definition order_by_date_id_desc : list Row -> list Row := RowSort.sort.

(** *** LIMIT ?

    [n] is the integer SQLite evaluates; a negative bound means no bound. *)
Definition limit {A} (n : Z) (l : list A) : list A :=
  if n <? 0 then l else firstn (Z.to_nat n) l.

(** *** SUM(amount), COUNT( * ) and GROUP BY *)

(** [SUM(amount)]: NULL over no rows, else the binary64 running sum. *)
Definition sum_amount (rows : list Row) : option float :=
  match rows with
  | [] => None
  | _ => Some (fold_left (fun acc r => Float.add acc (amount r)) rows Float.zero)
  end.

Definition key_eqb (c1 : string) (s1 : option string)
                   (c2 : string) (s2 : option string) : bool :=
  (String.eqb c1 c2 &&
   match s1, s2 with
   | None, None => true
   | Some x, Some y => String.eqb x y
   | _, _ => false
   end)%bool.

(** One result row of the grouped query:
    [(category, subcategory, SUM(amount), COUNT( * ))]. *)
Definition Group : Type := string * option string * float * Z.

(** Add one row to its group, opening a new group at the end. *)
Fixpoint accumulate (r : Row) (gs : list Group) : list Group :=
  match gs with
  | [] => [(category r, subcategory r, Float.add Float.zero (amount r), 1)]
  | (c, s, total, n) :: rest =>
      if key_eqb c s (category r) (subcategory r)
      then (c, s, Float.add total (amount r), n + 1) :: rest
      else (c, s, total, n) :: accumulate r rest
  end.

(** [GROUP BY category, subcategory] *)
Definition group_by (rows : list Row) : list Group :=
  fold_left (fun gs r => accumulate r gs) rows [].

(** The order in which the groups are formed: SQLite walks [GROUP BY
    category, subcategory] with each term in the direction of the
    [ORDER BY] term at its place, so category ascending and subcategory
    descending, NULL last. *)
Definition formed_before (g1 g2 : Group) : bool :=
  match g1, g2 with
  | (c1, s1, _, _), (c2, s2, _, _) =>
      match String.compare c1 c2 with
      | Lt => true
      | Gt => false
      | Eq =>
          match s1, s2 with
          | _, None => true
          | None, Some _ => false
          | Some a, Some b => negb (String.ltb a b)
          end
      end
  end.

(** [ORDER BY category, SUM(amount) DESC] *)
Definition group_before (g1 g2 : Group) : bool :=
  match g1, g2 with
  | (c1, _, t1, _), (c2, _, t2, _) =>
      match String.compare c1 c2 with
      | Lt => true
      | Gt => false
      | Eq => negb (Float.ltb t1 t2)
      end
  end.

(** A sort that keeps the order of rows that tie. *)
Fixpoint place (before : Group -> Group -> bool) (g : Group)
    (sorted : list Group) : list Group :=
  match sorted with
  | [] => [g]
  | h :: rest =>
      if before h g then h :: place before g rest else g :: h :: rest
  end.

Definition sort_groups (before : Group -> Group -> bool) (gs : list Group)
  : list Group :=
  fold_left (fun acc g => place before g acc) gs [].

(** The groups as the grouped query returns them: formed, then ordered;
    groups that tie on category and sum stay in the order they were
    formed in. *)
Definition order_groups (gs : list Group) : list Group :=
  sort_groups group_before (sort_groups formed_before gs).

End Sqlite.

Import Sqlite(Row, Store, Unavailable, NoTable, Table, Cond, CategoryEq, DateGe, DateLe).

Declare Scope db_scope.
Delimit Scope db_scope with db.
Notation "x <- m ;; k" := (Sqlite.bind m (fun x => k))
  (at level 61, m at next level, right associativity) : db_scope.

(* ------------------------------------------------------------------ *)
(** ** The handlers of [main.py] *)

(** A tool always answers with text and leaves a store behind. *)
Definition Tool : Type := Store -> string * Store.

(** A resource read has no handler of its own around it: it may raise. *)
Definition Resource : Type := Store -> outcome string * Store.

(** [try: with sqlite3.connect(...) as conn: body  except Exception as e:
    return handler(str(e))] *)
Definition try_except (body : Sqlite.M string) (handler : string -> string)
  : Tool :=
  fun db =>
    match body db with
    | Returned (text, db') => (text, db')
    | Raised e => (handler e, db)
    end.

(** [with sqlite3.connect(...) as conn: body] with nothing around it. *)
Definition unguarded (body : Sqlite.M string) : Resource :=
  fun db =>
    match body db with
    | Returned (text, db') => (Returned text, db')
    | Raised e => (Raised e, db)
    end.

(** The configured hierarchy, as [json.load] gives it: category name to
    subcategory names, keys distinct. *)
Definition Config : Type := list (string * list string).

(** What is found at [CATEGORIES_FILE]: no file; a file on which the
    handler raises an exception with text [err] ([open] or [json.load]
    fails, or the loaded value has no [keys()], or a value under a key
    cannot be sorted); or a file that holds a configuration, where a
    value that Python takes as false reads as the empty one.  Other
    values that the handler happens to accept (a text or numbers under a
    key) are outside the model. *)
Inductive ConfigFile :=
| Absent
| Malformed (err : string)
| Loaded (config : Config).

Module StringAsc <: TotalLeBool.
Definition t := string.
Definition leb := String.leb.
Definition leb_total := String.leb_total.
End StringAsc.

Module StringSort := Sort StringAsc.

(** [sorted(xs)] on strings *)
Definition sorted : list string -> list string := StringSort.sort.

(** [config[cat]] *)
Fixpoint lookup (config : Config) (cat : string) : list string :=
  match config with
  | [] => []
  | (k, subs) :: rest => if String.eqb k cat then subs else lookup rest cat
  end.

(** [load_categories_config()]: [{}] when the file is absent. *)
Definition load_categories_config (file : ConfigFile) : outcome Config :=
  match file with
  | Absent => Returned []
  | Malformed err => Raised err
  | Loaded config => Returned config
  end.

(** [init_db()] *)
Definition init_db : Store -> outcome unit * Store :=
  fun db =>
    match Sqlite.create_table_if_not_exists db with
    | Returned (_, db') => (Returned tt, db')
    | Raised e => (Raised e, db)
    end.

(** [x or 0] on the result of [SUM(amount)]: NULL and both zeros are
    falsy. *)
Definition or_zero (x : option float) : float :=
  match x with
  | Some (S754_zero _) => Float.zero
  | Some total => total
  | None => Float.zero
  end.

Section Handlers.

Open Scope db_scope.

(** [datetime.now().strftime("%Y-%m-%d")] at the time of the call. *)
Variable today : string.

(** [str(DB_PATH)] *)
Variable DB_PATH : string.

Definition add_expense (amount : float) (category : string)
    (subcategory note date : option string) : Tool :=
  fun db =>
    if Float.leb amount Float.zero
    then ("Error: Amount must be a positive number.", db)
    else
      let record_date := Text.or_else date today in
      try_except
        (expense_id <- Sqlite.insert amount record_date category
                                      subcategory note ;;
         Sqlite.ret
           ("Successfully added expense ID " ++ Text.str_int expense_id
            ++ ": " ++ category
            ++ " (" ++ Text.or_else subcategory "N/A" ++ ") - $"
            ++ Float.fmt_2f amount ++ " on " ++ record_date))
        (fun e => "Error: Failed to save expense to database: " ++ e)
        db.

(** The [WHERE] fragments [list_expenses] appends, in order. *)
Definition list_conds (category start_date end_date : option string)
  : list Cond :=
  (if Text.truthy category
   then [CategoryEq (Text.or_else category "")] else [])
  ++ (if Text.truthy start_date
      then [DateGe (Text.or_else start_date "")] else [])
  ++ (if Text.truthy end_date
      then [DateLe (Text.or_else end_date "")] else []).

(** The rows [cursor.fetchall()] gives [list_expenses]. *)
Definition list_query (category start_date end_date : option string)
    (limit : Z) (rows : list Row) : list Row :=
  Sqlite.limit limit
    (Sqlite.order_by_date_id_desc
       (filter (Sqlite.where_ (list_conds category start_date end_date))
               rows)).

Definition list_header : string :=
  Text.ljust 4 "ID" ++ " | " ++ Text.ljust 10 "Date" ++ " | "
  ++ Text.ljust 12 "Category" ++ " | " ++ Text.ljust 12 "Subcategory"
  ++ " | " ++ Text.ljust 8 "Amount" ++ " | " ++ "Note".

(** The [.2f] column of a listed row, [${r['amount']:<7.2f}]. *)
Definition amount_column (a : float) : string :=
  "$" ++ Text.ljust 7 (Float.fmt_2f a).

Definition list_line (r : Row) : string :=
  Text.ljust 4 (Text.str_int (Sqlite.id r)) ++ " | "
  ++ Text.ljust 10 (Sqlite.date r) ++ " | "
  ++ Text.ljust 12 (Sqlite.category r) ++ " | "
  ++ Text.ljust 12 (Text.or_else (Sqlite.subcategory r) "N/A") ++ " | "
  ++ amount_column (Sqlite.amount r) ++ " | "
  ++ Text.or_else (Sqlite.note r) "".

(** What [list_expenses] returns for the fetched rows. *)
Definition list_render (rows : list Row) : string :=
  match rows with
  | [] => "No expenses found matching the criteria."
  | _ =>
      Text.join (String "010" "")
        (list_header :: Text.times "-" 80 :: map list_line rows)
  end.

Definition list_expenses (category start_date end_date : option string)
    (limit : Z) : Tool :=
  try_except
    (rows <- Sqlite.select_with_int limit
               (list_query category start_date end_date limit) ;;
     Sqlite.ret (list_render rows))
    (fun e => "Error: " ++ e).

(** The [WHERE] fragments [get_summary] appends, in order. *)
Definition summary_conds (start_date end_date : option string)
  : list Cond :=
  (if Text.truthy start_date
   then [DateGe (Text.or_else start_date "")] else [])
  ++ (if Text.truthy end_date
      then [DateLe (Text.or_else end_date "")] else []).

(** The grouped query of [get_summary]. *)
Definition summary_query (start_date end_date : option string)
    (rows : list Row) : list Sqlite.Group :=
  Sqlite.order_groups
    (Sqlite.group_by
       (filter (Sqlite.where_ (summary_conds start_date end_date)) rows)).

(** [SELECT SUM(amount) FROM expenses WHERE ...], then [or 0]. *)
Definition total_query (start_date end_date : option string)
    (rows : list Row) : float :=
  or_zero
    (Sqlite.sum_amount
       (filter (Sqlite.where_ (summary_conds start_date end_date)) rows)).

Definition category_heading (cat : string) (amt : float) (count : Z)
  : string :=
  String "010" "" ++ "[" ++ Text.upper cat ++ "] - Total: $"
  ++ Float.fmt_2f amt ++ " (" ++ Text.str_int count ++ " entries)".

Definition subcategory_line (sub : string) (amt : float) : string :=
  "  └─ " ++ sub ++ ": $" ++ Float.fmt_2f amt.

(** The loop [for cat, sub, amt, count in rows], with [current_cat]
    threaded through; the lines appended to [output]. *)
Fixpoint summary_lines (current_cat : option string)
    (rows : list Sqlite.Group) : list string :=
  match rows with
  | [] => []
  | (cat, sub, amt, count) :: rest =>
      let changed :=
        match current_cat with
        | Some c => negb (String.eqb cat c)
        | None => true
        end in
      (if changed then [category_heading cat amt count] else [])
      ++ (if Text.truthy sub
          then [subcategory_line (Text.or_else sub "") amt] else [])
      ++ summary_lines (Some cat) rest
  end.

Definition get_summary (start_date end_date : option string) : Tool :=
  try_except
    (rows <- Sqlite.select (summary_query start_date end_date) ;;
     match rows with
     | [] => Sqlite.ret "No data recorded for the selected period."
     | _ =>
         total_sum <- Sqlite.select (total_query start_date end_date) ;;
         Sqlite.ret
           (Text.join (String "010" "")
              (("Expense Summary Report ("
                ++ Text.or_else start_date "Beginning" ++ " to "
                ++ Text.or_else end_date "Now" ++ ")")
               :: ("TOTAL SPEND: $" ++ Float.fmt_2f total_sum)
               :: Text.times "-" 40
               :: summary_lines None rows))
     end)
    (fun e => "Error gathering summary: " ++ e).

(** The [expenses://categories] resource. *)
Definition get_categories_and_subcategories (file : ConfigFile)
  : Resource :=
  fun db =>
    match load_categories_config file with
    | Raised e => (Raised e, db)
    | Returned config =>
        match config with
        | [] => (Returned "No categories configured.", db)
        | _ =>
            (Returned
               (Text.join (String "010" "")
                  ("Full Expense Categories Hierarchy:"
                   :: Text.times "-" 35
                   :: flat_map
                        (fun cat =>
                           (String "010" "" ++ Text.upper cat)
                           :: match sorted (lookup config cat) with
                              | [] => ["  (No subcategories)"]
                              | subs =>
                                  map (fun sub => "  └─ " ++ sub) subs
                              end)
                        (sorted (map fst config)))),
             db)
        end
    end.

(** The [expenses://summary] resource. *)
Definition get_resource_summary : Resource :=
  unguarded
    (total <- Sqlite.select (fun rows => or_zero (Sqlite.sum_amount rows)) ;;
     Sqlite.ret
       ("Database: " ++ DB_PATH ++ String "010" ""
        ++ "Total lifetime spend tracked: $" ++ Float.fmt_2f total)).

End Handlers.

(** [list_expenses] called with [limit] omitted: the default is 20. *)
Definition list_expenses_default (category start_date end_date : option string)
  : Tool :=
  list_expenses category start_date end_date 20.

(** Number of rows in [expenses] (0 when there is no table to count). *)
Definition row_count (db : Store) : Z :=
  match db with
  | Table rows _ => Z.of_nat (List.length rows)
  | _ => 0
  end.

(** The rows of [expenses] (none when there is no table). *)
Definition rows_of (db : Store) : list Row :=
  match db with
  | Table rows _ => rows
  | _ => []
  end.

(** The arguments of one [add_expense] call. *)
Record AddArgs := mkAdd {
  arg_amount : float;
  arg_category : string;
  arg_subcategory : option string;
  arg_note : option string;
  arg_date : option string
}.

Definition call_add (today : string) (a : AddArgs) : Tool :=
  add_expense today (arg_amount a) (arg_category a) (arg_subcategory a)
              (arg_note a) (arg_date a).

(** The store after a sequence of [add_expense] calls. *)
Fixpoint run_adds (today : string) (calls : list AddArgs) (db : Store)
  : Store :=
  match calls with
  | [] => db
  | a :: rest => run_adds today rest (snd (call_add today a db))
  end.

(* ------------------------------------------------------------------ *)
(** ** The filter of the specification

    Following the specification's words: a filter is supplied when it is
    a non-empty string; a record satisfies the filters when its category
    equals the supplied category, its date is at least the supplied start
    date and at most the supplied end date, dates compared as strings. *)

Definition when_supplied (o : option string) (p : string -> bool) : bool :=
  match o with
  | None => true
  | Some "" => true
  | Some v => p v
  end.

Definition satisfies (category start_date end_date : option string)
    (r : Row) : bool :=
  (when_supplied category (fun c => String.eqb (Sqlite.category r) c)
   && when_supplied start_date (fun s => String.leb s (Sqlite.date r))
   && when_supplied end_date (fun e => String.leb (Sqlite.date r) e))%bool.

(** The order of a listing: later date first, and on one date the larger
    id first. *)
Definition listed_before (a b : Row) : Prop :=
  String.compare (Sqlite.date a) (Sqlite.date b) = Gt
  \/ (Sqlite.date a = Sqlite.date b /\ Sqlite.id b <= Sqlite.id a).

(* ------------------------------------------------------------------ *)
(** ** Notions used in the statements *)

(** The id AUTOINCREMENT hands out next. *)
Definition next_id (rows : list Row) (seq : Z) : Z :=
  Z.max seq (Sqlite.max_rowid rows) + 1.

(** The success text for the record stored under id [i]. *)
Definition added_message (i : Z) (amount : float) (category : string)
    (subcategory : option string) (record_date : string) : string :=
  "Successfully added expense ID " ++ Text.str_int i ++ ": " ++ category
  ++ " (" ++ Text.or_else subcategory "N/A" ++ ") - $"
  ++ Float.fmt_2f amount ++ " on " ++ record_date.

(** A text that reports a stored record. *)
Definition succeeded (text : string) : bool :=
  String.prefix "Successfully added expense ID " text.

(** The largest id the table ever held. *)
Definition high_water (db : Store) : Z :=
  match db with
  | Table rows seq => Z.max seq (Sqlite.max_rowid rows)
  | _ => 0
  end.

(** The three ways a call of [add_expense] ends. *)
Inductive add_result (today : string) (amount : float) (category : string)
    (subcategory note date : option string) (db : Store)
  : string * Store -> Prop :=
| AddRejected :
    Float.leb amount Float.zero = true ->
    add_result today amount category subcategory note date db
      ("Error: Amount must be a positive number.", db)
| AddFailed (e : string) :
    Float.leb amount Float.zero = false ->
    add_result today amount category subcategory note date db
      ("Error: Failed to save expense to database: " ++ e, db)
| AddStored (rows : list Row) (seq : Z) :
    db = Table rows seq ->
    Float.leb amount Float.zero = false ->
    Float.is_nan amount = false ->
    Z.max seq (Sqlite.max_rowid rows) < Sqlite.INT64_MAX ->
    add_result today amount category subcategory note date db
      (added_message (next_id rows seq) amount category subcategory
         (Text.or_else date today),
       Table
         (rows ++ [Sqlite.mkRow (next_id rows seq) amount
                     (Text.or_else date today) category subcategory note])
         (next_id rows seq)).

(** From the empty table the mark is the number of rows. *)
Definition dense (db : Store) : Prop :=
  exists rows seq, db = Table rows seq /\ high_water db = row_count db.

(** Records dated after [d]: they are listed ahead of a record of [d]. *)
Definition dated_after (d : string) (r : Row) : bool :=
  String.ltb d (Sqlite.date r).

(** The records of one category. *)
Definition category_rows (cat : string) (rows : list Row) : list Row :=
  filter (fun r => String.eqb (Sqlite.category r) cat) rows.

(** *** Notions for the summary and the categories resource *)

(** The pair a record is grouped by. *)
Definition row_key (r : Row) : string * option string :=
  (Sqlite.category r, Sqlite.subcategory r).

(** The pair, sum and count of a result row of the grouped query. *)
Definition group_key (g : Sqlite.Group) : string * option string :=
  fst (fst g).

Definition group_category (g : Sqlite.Group) : string := fst (group_key g).

Definition group_sum (g : Sqlite.Group) : float := snd (fst g).

Definition group_count (g : Sqlite.Group) : Z := snd g.

(** The records grouped under the pair [k], in table order. *)
Definition members (k : string * option string) (rows : list Row)
  : list Row :=
  filter
    (fun r =>
       Sqlite.key_eqb (fst k) (snd k) (Sqlite.category r)
         (Sqlite.subcategory r))
    rows.

(** The binary64 sum of the amounts, added up in table order from 0.0. *)
Definition running_sum (rows : list Row) : float :=
  fold_left (fun acc r => Float.add acc (Sqlite.amount r)) rows Float.zero.

(** The counts of the groups, added up. *)
Definition count_sum (gs : list Sqlite.Group) : Z :=
  fold_right (fun g acc => group_count g + acc) 0 gs.

(** A line of the summary that opens a category: a line break, then a
    bracket. *)
Definition is_heading_line (line : string) : bool :=
  String.prefix (String "010" "[") line.

(** A line of the summary that shows a subcategory. *)
Definition is_subcategory_line (line : string) : bool :=
  String.prefix "  └─ " line.

(** The heading line and the subcategory line written for a group row. *)
Definition heading_of (g : Sqlite.Group) : string :=
  category_heading (group_category g) (group_sum g) (group_count g).

Definition subcategory_line_of (g : Sqlite.Group) : string :=
  subcategory_line (Text.or_else (snd (group_key g)) "") (group_sum g).

(** The group rows at which the category differs from the one before. *)
Fixpoint openers (current_cat : option string) (gs : list Sqlite.Group)
  : list Sqlite.Group :=
  match gs with
  | [] => []
  | g :: rest =>
      match current_cat with
      | Some c =>
          if String.eqb (group_category g) c
          then openers (Some (group_category g)) rest
          else g :: openers (Some (group_category g)) rest
      | None => g :: openers (Some (group_category g)) rest
      end
  end.

(** Ascending order of category names. *)
Definition category_le (a b : string) : Prop := String.compare a b <> Gt.

(** Two configurations with the same category names and, under each
    name, the same subcategory names, in whatever order. *)
Definition same_hierarchy (c1 c2 : Config) : Prop :=
  Permutation (map fst c1) (map fst c2)
  /\ forall cat, Permutation (lookup c1 cat) (lookup c2 cat).

(** The ids 1, 2, ..., n. *)
Definition ids_up_to (n : nat) : list Z := map Z.of_nat (seq 1 n).

(** What [GROUP BY category, subcategory] holds for a table. *)
Definition grouped (rows : list Row) (gs : list Sqlite.Group) : Prop :=
  NoDup (map group_key gs)
  /\ (forall g, In g gs ->
                members (group_key g) rows <> []
                /\ group_sum g = running_sum (members (group_key g) rows)
                /\ group_count g
                   = Z.of_nat (List.length (members (group_key g) rows)))
  /\ (forall r, In r rows -> In (row_key r) (map group_key gs)).

(** Group rows in ascending order of category. *)
Definition by_category (g1 g2 : Sqlite.Group) : Prop :=
  category_le (group_category g1) (group_category g2).

(** The ids of a table filled from empty count up from 1. *)
Definition counted (db : Store) : Prop :=
  exists rows seq,
    db = Table rows seq
    /\ map Sqlite.id rows = ids_up_to (List.length rows)
    /\ high_water db = Z.of_nat (List.length rows).

(* ------------------------------------------------------------------ *)
(** ** Sample stores *)

Module Sample.

Definition today : string := "2024-03-01".

Definition db_path : string := "/tmp/expense_tracker/expenses.db".

(** The store after [init_db()] on a new database file. *)
Definition fresh : Store := snd (init_db NoTable).

(** The records of the specification's summary example. *)
Definition summary_calls : list AddArgs :=
  [ mkAdd (Float.of_Z 10) "Food" (Some "Grocery") None None;
    mkAdd (Float.of_Z 30) "Food" (Some "Restaurant") None None;
    mkAdd (Float.of_Z 5) "Transport" None None None ].

Definition summary_store : Store := run_adds today summary_calls fresh.

(** The records of the specification's filtering example. *)
Definition dated_calls : list AddArgs :=
  [ mkAdd (Float.cents 1250) "Food" None None (Some "2024-01-01");
    mkAdd (Float.cents 799) "Food" (Some "Grocery") None (Some "2024-01-15");
    mkAdd (Float.of_Z 40) "Rent" None (Some "flat") (Some "2024-02-01") ].

Definition dated_store : Store := run_adds today dated_calls fresh.

(** [n] purchases on one day. *)
Definition same_day_calls (n : nat) (day : string) : list AddArgs :=
  repeat (mkAdd (Float.of_Z 3) "Coffee" None None (Some day)) n.

End Sample.

(* ------------------------------------------------------------------ *)
(** ** Facts about text *)

Section TextFacts.

Lemma string_compare_refl (s : string) : String.compare s s = Eq.
Proof.
  induction s as [|c s IH]; simpl; auto.
  unfold Ascii.compare. now rewrite N.compare_refl.
Qed.

Lemma string_compare_lt_trans (a b c : string) :
  String.compare a b = Lt -> String.compare b c = Lt ->
  String.compare a c = Lt.
Proof.
  revert b c.
  induction a as [|x a IH]; intros [|y b] [|z c]; simpl;
    try discriminate; auto.
  unfold Ascii.compare.
  destruct (N.compare_spec (N_of_ascii x) (N_of_ascii y)) as [E1|E1|E1];
    try discriminate;
    destruct (N.compare_spec (N_of_ascii y) (N_of_ascii z)) as [E2|E2|E2];
    try discriminate; intros H1 H2.
  - rewrite E1, E2, N.compare_refl. eauto.
  - rewrite E1. now apply N.compare_lt_iff in E2 as ->.
  - rewrite <- E2. now apply N.compare_lt_iff in E1 as ->.
  - assert (E3 : (N_of_ascii x < N_of_ascii z)%N) by lia.
    now apply N.compare_lt_iff in E3 as ->.
Qed.

Lemma string_compare_gt_trans (a b c : string) :
  String.compare a b = Gt -> String.compare b c = Gt ->
  String.compare a c = Gt.
Proof.
  intros H1 H2.
  rewrite String.compare_antisym in H1, H2 |- *.
  assert (String.compare c b = Lt) by (destruct (String.compare c b); easy).
  assert (String.compare b a = Lt) by (destruct (String.compare b a); easy).
  now rewrite (string_compare_lt_trans c b a).
Qed.

Lemma contains_here (needle rest : string) :
  Text.contains needle (needle ++ rest) = true.
Proof.
  assert (P : String.prefix needle (needle ++ rest) = true).
  { induction needle as [|c n IH]; simpl.
    - now destruct rest.
    - destruct (ascii_dec c c); [exact IH | contradiction]. }
  remember (needle ++ rest) as hay eqn:E. clear E.
  destruct hay; cbn [Text.contains]; rewrite P; reflexivity.
Qed.

Lemma contains_skip (needle front rest : string) :
  Text.contains needle rest = true ->
  Text.contains needle (front ++ rest) = true.
Proof.
  intros H. induction front as [|c f IH]; auto.
  change (String c f ++ rest) with (String c (f ++ rest)).
  cbn [Text.contains].
  destruct (String.prefix needle (String c (f ++ rest))); auto.
Qed.

Lemma contains_middle (needle front rest : string) :
  Text.contains needle (front ++ needle ++ rest) = true.
Proof. apply contains_skip, contains_here. Qed.

Lemma append_assoc (a b c : string) : (a ++ b) ++ c = a ++ (b ++ c).
Proof. induction a; simpl; congruence. Qed.

Lemma append_empty (a : string) : a ++ "" = a.
Proof. induction a; simpl; congruence. Qed.

(** A joined text contains each of its parts. *)
Lemma join_contains (sep line : string) (parts : list string) :
  In line parts -> Text.contains line (Text.join sep parts) = true.
Proof.
  unfold Text.join.
  induction parts as [|p ps IH]; [intros [] | intros [E|H]].
  - subst p. destruct ps as [|q ps]; simpl.
    + rewrite <- (append_empty line) at 2. apply contains_here.
    + apply contains_here.
  - destruct ps as [|q ps]; [destruct H|].
    change (String.concat sep (p :: q :: ps))
      with (p ++ sep ++ String.concat sep (q :: ps)).
    apply contains_skip, contains_skip, IH, H.
Qed.

End TextFacts.

(* ------------------------------------------------------------------ *)
(** ** Facts about the queries *)

Section QueryFacts.

(** The fragments [list_expenses] appends select the records that
    satisfy the supplied filters. *)
Lemma where_list_conds (category start_date end_date : option string)
    (r : Row) :
  Sqlite.where_ (list_conds category start_date end_date) r
  = satisfies category start_date end_date r.
Proof.
  unfold Sqlite.where_, list_conds, satisfies.
  destruct category as [[|c0 c]|], start_date as [[|s0 s]|],
           end_date as [[|e0 e]|];
    cbn [Text.truthy Text.or_else when_supplied app forallb Sqlite.holds];
    rewrite ?andb_true_r, ?andb_assoc; reflexivity.
Qed.

Lemma where_summary_conds (start_date end_date : option string) (r : Row) :
  Sqlite.where_ (summary_conds start_date end_date) r
  = satisfies None start_date end_date r.
Proof.
  unfold Sqlite.where_, summary_conds, satisfies.
  destruct start_date as [[|s0 s]|], end_date as [[|e0 e]|];
    cbn [Text.truthy Text.or_else when_supplied app forallb Sqlite.holds];
    rewrite ?andb_true_r, ?andb_assoc; reflexivity.
Qed.

Lemma filter_list_conds category start_date end_date (rows : list Row) :
  filter (Sqlite.where_ (list_conds category start_date end_date)) rows
  = filter (satisfies category start_date end_date) rows.
Proof. apply filter_ext. intro r. apply where_list_conds. Qed.

Lemma filter_summary_conds start_date end_date (rows : list Row) :
  filter (Sqlite.where_ (summary_conds start_date end_date)) rows
  = filter (satisfies None start_date end_date) rows.
Proof. apply filter_ext. intro r. apply where_summary_conds. Qed.

Lemma satisfies_unfiltered (r : Row) : satisfies None None None r = true.
Proof. reflexivity. Qed.

Lemma filter_unfiltered (rows : list Row) :
  filter (satisfies None None None) rows = rows.
Proof. induction rows; simpl; congruence. Qed.

(** *** The listing order *)

Lemma leb_listed_before (a b : Row) :
  Sqlite.DateIdDesc.leb a b = true <-> listed_before a b.
Proof.
  unfold Sqlite.DateIdDesc.leb, listed_before.
  destruct (String.compare (Sqlite.date a) (Sqlite.date b)) eqn:E.
  - apply String.compare_eq_iff in E. rewrite Z.leb_le.
    split; [auto | intros [H|[_ H]]; [discriminate | exact H]].
  - split; [discriminate | intros [H|[H _]]; [discriminate|]].
    rewrite H, string_compare_refl in E. discriminate.
  - split; auto.
Qed.

Lemma listed_before_trans (a b c : Row) :
  listed_before a b -> listed_before b c -> listed_before a c.
Proof.
  unfold listed_before.
  intros [H1|[E1 I1]] [H2|[E2 I2]].
  - left. eapply string_compare_gt_trans; eauto.
  - left. now rewrite <- E2.
  - left. now rewrite E1.
  - right. split; [congruence | lia].
Qed.

Lemma date_id_desc_transitive :
  Transitive (fun a b => is_true (Sqlite.DateIdDesc.leb a b)).
Proof.
  intros a b c H1 H2. unfold is_true in *.
  rewrite leb_listed_before in *. eapply listed_before_trans; eauto.
Qed.

Lemma order_by_sorted (rows : list Row) :
  StronglySorted listed_before (Sqlite.order_by_date_id_desc rows).
Proof.
  pose proof (Sqlite.RowSort.StronglySorted_sort rows
                date_id_desc_transitive) as H.
  unfold Sqlite.order_by_date_id_desc.
  induction H as [|r l Hs IH Hall]; constructor; auto.
  rewrite Forall_forall in *. intros x Hx.
  apply leb_listed_before, Hall, Hx.
Qed.

Lemma order_by_permutation (rows : list Row) :
  Permutation rows (Sqlite.order_by_date_id_desc rows).
Proof. apply Sqlite.RowSort.Permuted_sort. Qed.

(** *** LIMIT *)

Lemma limit_incl {A} (n : Z) (l : list A) (x : A) :
  In x (Sqlite.limit n l) -> In x l.
Proof.
  unfold Sqlite.limit. destruct (n <? 0); auto.
  intros H. rewrite <- (firstn_skipn (Z.to_nat n) l).
  apply in_or_app. now left.
Qed.

Lemma limit_length {A} (n : Z) (l : list A) :
  0 <= n -> Z.of_nat (List.length (Sqlite.limit n l)) <= n.
Proof.
  intros H. unfold Sqlite.limit.
  destruct (Z.ltb_spec n 0); [lia|].
  pose proof (firstn_le_length (Z.to_nat n) l). lia.
Qed.

Lemma limit_all {A} (n : Z) (l : list A) :
  n < 0 \/ Z.of_nat (List.length l) <= n -> Sqlite.limit n l = l.
Proof.
  unfold Sqlite.limit. intros [H|H].
  - destruct (Z.ltb_spec n 0); [reflexivity | lia].
  - destruct (n <? 0); [reflexivity|]. apply firstn_all2. lia.
Qed.

Lemma limit_prefix {A} (n : Z) (l : list A) :
  exists rest, l = (Sqlite.limit n l ++ rest)%list.
Proof.
  unfold Sqlite.limit. destruct (n <? 0).
  - exists []. now rewrite app_nil_r.
  - exists (skipn (Z.to_nat n) l). now rewrite firstn_skipn.
Qed.

Lemma strongly_sorted_prefix {A} (R : A -> A -> Prop) (l1 l2 : list A) :
  StronglySorted R (l1 ++ l2)%list -> StronglySorted R l1.
Proof.
  induction l1 as [|x l1 IH]; simpl; intros H; [constructor|].
  inversion H as [|? ? Hs Hall]; subst. constructor; auto.
  rewrite Forall_forall in *. intros y Hy. apply Hall, in_or_app. now left.
Qed.

End QueryFacts.

(* ------------------------------------------------------------------ *)
(** ** Facts about [add_expense] *)

Section AddFacts.

Variable today : string.

Lemma add_expense_result amount category subcategory note date db :
  add_result today amount category subcategory note date db
    (add_expense today amount category subcategory note date db).
Proof.
  unfold add_expense.
  destruct (Float.leb amount Float.zero) eqn:V; [now constructor|].
  unfold try_except, Sqlite.bind, Sqlite.insert, Sqlite.ret.
  destruct db as [err| |rows seq]; try now constructor.
  destruct (Float.is_nan amount) eqn:N; [now constructor|].
  destruct (Z.leb_spec Sqlite.INT64_MAX (Z.max seq (Sqlite.max_rowid rows)));
    [now constructor|].
  now apply AddStored with (rows := rows) (seq := seq).
Qed.

Lemma add_expense_stores amount category subcategory note date rows seq :
  Float.leb amount Float.zero = false ->
  Float.is_nan amount = false ->
  Z.max seq (Sqlite.max_rowid rows) < Sqlite.INT64_MAX ->
  add_expense today amount category subcategory note date (Table rows seq)
  = (added_message (next_id rows seq) amount category subcategory
       (Text.or_else date today),
     Table
       (rows ++ [Sqlite.mkRow (next_id rows seq) amount
                   (Text.or_else date today) category subcategory note])
       (next_id rows seq)).
Proof.
  intros V N F. unfold add_expense. rewrite V.
  unfold try_except, Sqlite.bind, Sqlite.insert, Sqlite.ret. rewrite N.
  destruct (Z.leb_spec Sqlite.INT64_MAX (Z.max seq (Sqlite.max_rowid rows)));
    [lia | reflexivity].
Qed.

Lemma positive_passes_validation (amount : float) :
  Float.ltb Float.zero amount = true ->
  Float.leb amount Float.zero = false /\ Float.is_nan amount = false.
Proof. destruct amount as [s|s| |s m e]; try destruct s; cbv; auto. Qed.

Lemma error_not_succeeded_1 :
  succeeded "Error: Amount must be a positive number." = false.
Proof. reflexivity. Qed.

Lemma error_not_succeeded_2 (e : string) :
  succeeded ("Error: Failed to save expense to database: " ++ e) = false.
Proof. reflexivity. Qed.

Lemma max_rowid_bound (rows : list Row) (r : Row) :
  In r rows -> Sqlite.id r <= Sqlite.max_rowid rows.
Proof.
  unfold Sqlite.max_rowid.
  induction rows as [|x rows IH]; simpl; [easy|].
  intros [->|H]; [|apply IH in H]; lia.
Qed.

Lemma max_rowid_snoc (rows : list Row) (r : Row) :
  Sqlite.max_rowid (rows ++ [r])
  = Z.max (Sqlite.max_rowid rows) (Z.max (Sqlite.id r) 0).
Proof.
  unfold Sqlite.max_rowid.
  induction rows as [|x rows IH]; simpl; [lia|]. rewrite IH. lia.
Qed.

Lemma max_rowid_nonneg (rows : list Row) : 0 <= Sqlite.max_rowid rows.
Proof.
  unfold Sqlite.max_rowid. induction rows; simpl; lia.
Qed.

(** A successful call reports the id it stored; the mark moves to it. *)
Lemma succeeded_stores (a : AddArgs) (db : Store) :
  succeeded (fst (call_add today a db)) = true ->
  exists rows seq,
    db = Table rows seq
    /\ call_add today a db
       = (added_message (high_water db + 1) (arg_amount a) (arg_category a)
            (arg_subcategory a) (Text.or_else (arg_date a) today),
          Table
            (rows ++ [Sqlite.mkRow (high_water db + 1) (arg_amount a)
                        (Text.or_else (arg_date a) today) (arg_category a)
                        (arg_subcategory a) (arg_note a)])
            (high_water db + 1))
    /\ high_water (snd (call_add today a db)) = high_water db + 1.
Proof.
  unfold call_add.
  destruct (add_expense_result (arg_amount a) (arg_category a)
              (arg_subcategory a) (arg_note a) (arg_date a) db)
    as [V|e V|rows seq E V N F]; cbn [fst snd].
  - rewrite error_not_succeeded_1. discriminate.
  - rewrite error_not_succeeded_2. discriminate.
  - intros _. exists rows, seq. subst db. unfold next_id, high_water.
    repeat split; auto.
    rewrite max_rowid_snoc. cbn [Sqlite.id].
    pose proof (max_rowid_nonneg rows). lia.
Qed.

Lemma high_water_add (a : AddArgs) (db : Store) :
  high_water db <= high_water (snd (call_add today a db)).
Proof.
  unfold call_add.
  destruct (add_expense_result (arg_amount a) (arg_category a)
              (arg_subcategory a) (arg_note a) (arg_date a) db)
    as [V|e V|rows seq E V N F]; cbn [snd]; try lia.
  subst db. unfold next_id, high_water.
  rewrite max_rowid_snoc. cbn [Sqlite.id]. lia.
Qed.

Lemma high_water_run (calls : list AddArgs) (db : Store) :
  high_water db <= high_water (run_adds today calls db).
Proof.
  revert db. induction calls as [|a calls IH]; intros db; simpl; [lia|].
  pose proof (high_water_add a db). specialize (IH (snd (call_add today a db))).
  lia.
Qed.

Lemma dense_add (a : AddArgs) (db : Store) :
  dense db -> dense (snd (call_add today a db)).
Proof.
  intros D. unfold call_add.
  destruct (add_expense_result (arg_amount a) (arg_category a)
              (arg_subcategory a) (arg_note a) (arg_date a) db)
    as [V|e V|rows seq E V N F]; cbn [snd]; auto.
  destruct D as (rows' & seq' & E' & H). rewrite E in E'.
  injection E' as <- <-. subst db.
  eexists _, _. split; [reflexivity|].
  unfold next_id, high_water, row_count in *.
  rewrite max_rowid_snoc, length_app. cbn [Sqlite.id List.length].
  pose proof (max_rowid_nonneg rows). lia.
Qed.

Lemma dense_run (calls : list AddArgs) (db : Store) :
  dense db -> dense (run_adds today calls db).
Proof.
  revert db. induction calls as [|a calls IH]; intros db D; simpl; auto.
  apply IH, dense_add, D.
Qed.

Lemma dense_empty : dense (Table [] 0).
Proof. exists [], 0. split; reflexivity. Qed.

End AddFacts.

(* ------------------------------------------------------------------ *)
(** ** Validation of the amount *)

(** C3. For every amount that is at most zero, [add_expense] returns the
    text "Error: Amount must be a positive number." as its result, writes
    nothing and leaves the row count as it was.  No other field is
    checked: with the same category, subcategory, note and date, whatever
    they are, a positive amount is stored with these fields as given. *)
Theorem add_expense_rejects_non_positive :
  forall (today : string) (amount : float) (category : string)
         (subcategory note date : option string) (db : Store),
    Float.leb amount Float.zero = true ->
    add_expense today amount category subcategory note date db
    = ("Error: Amount must be a positive number.", db)
    /\ row_count
         (snd (add_expense today amount category subcategory note date db))
       = row_count db
    /\ (forall (amount' : float) (rows : list Row) (seq : Z),
           Float.ltb Float.zero amount' = true ->
           Z.max seq (Sqlite.max_rowid rows) < Sqlite.INT64_MAX ->
           snd (add_expense today amount' category subcategory note date
                  (Table rows seq))
           = Table
               (rows ++ [Sqlite.mkRow (next_id rows seq) amount'
                           (Text.or_else date today) category subcategory
                           note])
               (next_id rows seq)).
Proof.
  intros today amount category subcategory note date db V.
  assert (E : add_expense today amount category subcategory note date db
              = ("Error: Amount must be a positive number.", db)).
  { unfold add_expense. now rewrite V. }
  rewrite E. repeat split.
  intros amount' rows seq P F.
  destruct (positive_passes_validation amount' P) as [V' N'].
  now rewrite add_expense_stores.
Qed.

Lemma add_expense_rejects_non_positive_witness :
  add_expense Sample.today (Float.of_Z (-5)) "Food" (Some "Grocery") None
    (Some "not a date") Sample.summary_store
  = ("Error: Amount must be a positive number.", Sample.summary_store)
  /\ snd (add_expense Sample.today (Float.cents 1) "Food" (Some "Grocery")
            None (Some "not a date") Sample.fresh)
     = Table [Sqlite.mkRow 1 (Float.cents 1) "not a date" "Food"
                (Some "Grocery") None] 1.
Proof.
  destruct (add_expense_rejects_non_positive Sample.today (Float.of_Z (-5))
              "Food" (Some "Grocery") None (Some "not a date")
              Sample.summary_store eq_refl) as (H1 & _ & H3).
  split; [exact H1|].
  apply (H3 (Float.cents 1) [] 0); [reflexivity | vm_compute; reflexivity].
Defined.

(* ------------------------------------------------------------------ *)
(** ** Identifiers *)

(** C7. Starting from the empty table, the id reported by a successful
    [add_expense] is the row count after that insertion; across successive
    successful calls the reported ids strictly increase; a successful call
    keeps every earlier row as it was, appends one row and gives it an id
    above all ids the table holds. *)
Theorem ids_increase_and_count_rows :
  forall today : string,
    (forall (calls : list AddArgs) (a : AddArgs),
        let db := run_adds today calls (Table [] 0) in
        succeeded (fst (call_add today a db)) = true ->
        exists i : Z,
          fst (call_add today a db)
          = added_message i (arg_amount a) (arg_category a)
              (arg_subcategory a) (Text.or_else (arg_date a) today)
          /\ i = row_count (snd (call_add today a db)))
    /\ (forall (db : Store) (a1 : AddArgs) (between : list AddArgs)
               (a2 : AddArgs),
           let db1 := snd (call_add today a1 db) in
           let db2 := run_adds today between db1 in
           succeeded (fst (call_add today a1 db)) = true ->
           succeeded (fst (call_add today a2 db2)) = true ->
           exists i1 i2 : Z,
             fst (call_add today a1 db)
             = added_message i1 (arg_amount a1) (arg_category a1)
                 (arg_subcategory a1) (Text.or_else (arg_date a1) today)
             /\ fst (call_add today a2 db2)
                = added_message i2 (arg_amount a2) (arg_category a2)
                    (arg_subcategory a2) (Text.or_else (arg_date a2) today)
             /\ i1 < i2)
    /\ (forall (rows : list Row) (seq : Z) (a : AddArgs),
           succeeded (fst (call_add today a (Table rows seq))) = true ->
           exists i : Z,
             call_add today a (Table rows seq)
             = (added_message i (arg_amount a) (arg_category a)
                  (arg_subcategory a) (Text.or_else (arg_date a) today),
                Table
                  (rows ++ [Sqlite.mkRow i (arg_amount a)
                              (Text.or_else (arg_date a) today)
                              (arg_category a) (arg_subcategory a)
                              (arg_note a)])
                  i)
             /\ forall r, In r rows -> Sqlite.id r < i).
Proof.
  intros today. repeat split.
  - intros calls a db S.
    destruct (succeeded_stores today a db S) as (rows & seq & E & C & H).
    exists (high_water db + 1). split; [now rewrite C|].
    assert (D : dense (snd (call_add today a db))).
    { apply dense_add, dense_run, dense_empty. }
    destruct D as (rows' & seq' & _ & D). now rewrite <- H.
  - intros db a1 between a2 db1 db2 S1 S2.
    destruct (succeeded_stores today a1 db S1) as (rows1 & seq1 & E1 & C1 & H1).
    destruct (succeeded_stores today a2 db2 S2)
      as (rows2 & seq2 & E2 & C2 & H2).
    exists (high_water db + 1), (high_water db2 + 1).
    rewrite C1 at 1. rewrite C2. cbn [fst]. repeat split.
    pose proof (high_water_run today between db1) as M.
    fold db2 in M. unfold db1 in M at 1. lia.
  - intros rows seq a S.
    destruct (succeeded_stores today a _ S) as (rows' & seq' & E & C & H).
    injection E as <- <-.
    exists (high_water (Table rows seq) + 1). split; [exact C|].
    intros r Hr. apply max_rowid_bound in Hr. cbn [high_water]. lia.
Qed.

Lemma ids_increase_and_count_rows_witness :
  (exists i : Z,
      fst (call_add Sample.today
             (mkAdd (Float.cents 450) "Transport" (Some "Bus") None None)
             (run_adds Sample.today Sample.summary_calls (Table [] 0)))
      = added_message i (Float.cents 450) "Transport" (Some "Bus")
          Sample.today
      /\ i = row_count
               (snd (call_add Sample.today
                       (mkAdd (Float.cents 450) "Transport" (Some "Bus")
                          None None)
                       (run_adds Sample.today Sample.summary_calls
                          (Table [] 0)))))
  /\ (exists i1 i2 : Z,
         fst (call_add Sample.today
                (mkAdd (Float.of_Z 7) "Food" None None None)
                Sample.dated_store)
         = added_message i1 (Float.of_Z 7) "Food" None Sample.today
         /\ fst (call_add Sample.today
                   (mkAdd (Float.of_Z 9) "Rent" None None None)
                   (run_adds Sample.today
                      [mkAdd (Float.of_Z (-1)) "Food" None None None]
                      (snd (call_add Sample.today
                              (mkAdd (Float.of_Z 7) "Food" None None None)
                              Sample.dated_store))))
            = added_message i2 (Float.of_Z 9) "Rent" None Sample.today
         /\ i1 < i2)
  /\ (exists i : Z,
         call_add Sample.today (mkAdd (Float.of_Z 7) "Food" None None None)
           (Table (rows_of Sample.dated_store) 3)
         = (added_message i (Float.of_Z 7) "Food" None Sample.today,
            Table
              (rows_of Sample.dated_store
               ++ [Sqlite.mkRow i (Float.of_Z 7) Sample.today "Food" None
                     None])
              i)
         /\ forall r, In r (rows_of Sample.dated_store) -> Sqlite.id r < i).
Proof.
  destruct (ids_increase_and_count_rows Sample.today) as (A & B & C).
  split; [|split].
  - apply (A Sample.summary_calls
             (mkAdd (Float.cents 450) "Transport" (Some "Bus") None None)).
    vm_compute. reflexivity.
  - apply (B Sample.dated_store
             (mkAdd (Float.of_Z 7) "Food" None None None)
             [mkAdd (Float.of_Z (-1)) "Food" None None None]
             (mkAdd (Float.of_Z 9) "Rent" None None None));
      vm_compute; reflexivity.
  - apply (C (rows_of Sample.dated_store) 3
             (mkAdd (Float.of_Z 7) "Food" None None None)).
    vm_compute. reflexivity.
Defined.

(* ------------------------------------------------------------------ *)
(** ** Frame: what each operation leaves of the store *)

(** C8. [list_expenses], [get_summary], the categories resource and the
    lifetime-summary resource leave the store exactly as it was;
    [add_expense] either leaves it as it was or appends one row after the
    existing rows, which stay in place unchanged. *)
Theorem records_are_immutable :
  forall (today db_path : string) (db : Store),
    (forall category start_date end_date limit,
        snd (list_expenses category start_date end_date limit db) = db)
    /\ (forall start_date end_date,
           snd (get_summary start_date end_date db) = db)
    /\ (forall file, snd (get_categories_and_subcategories file db) = db)
    /\ snd (get_resource_summary db_path db) = db
    /\ (forall amount category subcategory note date,
           let db' :=
             snd (add_expense today amount category subcategory note date db)
           in
           db' = db
           \/ exists rows seq r,
                db = Table rows seq
                /\ db' = Table (rows ++ [r]) (Sqlite.id r)
                /\ r = Sqlite.mkRow (next_id rows seq) amount
                         (Text.or_else date today) category subcategory note).
Proof.
  intros today db_path db. repeat split.
  - intros.
    unfold list_expenses, try_except, Sqlite.bind, Sqlite.select_with_int.
    destruct db as [e| |rows seq]; try reflexivity.
    destruct (Sqlite.fits_int64 limit); reflexivity.
  - intros. unfold get_summary, try_except, Sqlite.bind, Sqlite.select.
    destruct db as [e| |rows seq]; try reflexivity.
    destruct (summary_query start_date end_date rows); reflexivity.
  - intros. unfold get_categories_and_subcategories.
    destruct (load_categories_config file) as [[|entry config]|e];
      reflexivity.
  - unfold get_resource_summary, unguarded, Sqlite.bind, Sqlite.select.
    destruct db; reflexivity.
  - intros amount category subcategory note date db'. subst db'.
    destruct (add_expense_result today amount category subcategory note date
                db) as [V|e V|rows seq E V N F]; cbn [snd]; auto.
    right. eexists rows, seq, _. repeat split; [exact E|].
    reflexivity.
Qed.

(* ------------------------------------------------------------------ *)
(** ** The limit of a listing *)

Lemma render_contains (r : Row) (rs : list Row) :
  In r rs -> Text.contains (list_line r) (list_render rs) = true.
Proof.
  intros H. unfold list_render.
  destruct rs as [|x rs]; [destruct H|].
  apply join_contains. right. right. apply in_map, H.
Qed.

Lemma list_expenses_on_table category start_date end_date limit rows seq :
  Sqlite.fits_int64 limit = true ->
  list_expenses category start_date end_date limit (Table rows seq)
  = (list_render (list_query category start_date end_date limit rows),
     Table rows seq).
Proof.
  intros F.
  unfold list_expenses, try_except, Sqlite.bind, Sqlite.select_with_int.
  now rewrite F.
Qed.

Lemma list_expenses_out_of_range category start_date end_date limit rows seq :
  Sqlite.fits_int64 limit = false ->
  list_expenses category start_date end_date limit (Table rows seq)
  = ("Error: " ++ Sqlite.int_too_large, Table rows seq).
Proof.
  intros F.
  unfold list_expenses, try_except, Sqlite.bind, Sqlite.select_with_int.
  now rewrite F.
Qed.

Lemma fits_int64_range (n : Z) :
  Sqlite.fits_int64 n = true
  <-> Sqlite.INT64_MIN <= n <= Sqlite.INT64_MAX.
Proof.
  unfold Sqlite.fits_int64. rewrite andb_true_iff, !Z.leb_le. tauto.
Qed.

Lemma fits_int64_outside (n : Z) :
  Sqlite.fits_int64 n = false
  <-> n < Sqlite.INT64_MIN \/ Sqlite.INT64_MAX < n.
Proof.
  unfold Sqlite.fits_int64. rewrite andb_false_iff, !Z.leb_gt. tauto.
Qed.

Lemma get_summary_on_table start_date end_date rows seq :
  get_summary start_date end_date (Table rows seq)
  = (match summary_query start_date end_date rows with
     | [] => "No data recorded for the selected period."
     | gs =>
         Text.join (String "010" "")
           (("Expense Summary Report ("
             ++ Text.or_else start_date "Beginning" ++ " to "
             ++ Text.or_else end_date "Now" ++ ")")
            :: ("TOTAL SPEND: $"
                ++ Float.fmt_2f (total_query start_date end_date rows))
            :: Text.times "-" 40
            :: summary_lines None gs)
     end,
     Table rows seq).
Proof.
  unfold get_summary, try_except, Sqlite.bind, Sqlite.select.
  destruct (summary_query start_date end_date rows); reflexivity.
Qed.

Lemma list_query_selects category start_date end_date limit rows :
  list_query category start_date end_date limit rows
  = Sqlite.limit limit
      (Sqlite.order_by_date_id_desc
         (filter (satisfies category start_date end_date) rows)).
Proof. unfold list_query. now rewrite filter_list_conds. Qed.

(** With [limit] one below the 64-bit range, three matching records and
    no filter, the answer is the error text of the failed binding, not a
    listing of the matching records. *)
Lemma list_limit_below_range_counterexample :
  -9223372036854775809 < 0
  /\ In (Sqlite.mkRow 1 (Float.cents 1250) "2024-01-01" "Food" None None)
       (filter (satisfies None None None) (rows_of Sample.dated_store))
  /\ fst (list_expenses None None None (-9223372036854775809)
            Sample.dated_store)
     = "Error: Python int too large to convert to SQLite INTEGER"
  /\ Text.contains
       (list_line
          (Sqlite.mkRow 1 (Float.cents 1250) "2024-01-01" "Food" None None))
       (fst (list_expenses None None None (-9223372036854775809)
               Sample.dated_store))
     = false.
Proof.
  split; [lia|split; [|split]].
  - vm_compute. auto.
  - vm_compute. reflexivity.
  - vm_compute. reflexivity.
Qed.

(** C9 (amended). [limit] is not validated.  With [limit = 0] the answer
    is the "No expenses found matching the criteria." text whatever the
    table holds; with a negative [limit] that is not below -2^63 no bound
    applies: the listing is made of all matching records, each of which
    has its line in the text; a [limit] below -2^63 cannot be bound and is
    answered with the error text of the binding. *)
Theorem list_limit_zero_and_negative :
  forall (category start_date end_date : option string) (limit : Z)
         (rows : list Row) (seq : Z),
    (limit = 0 ->
     fst (list_expenses category start_date end_date limit (Table rows seq))
     = "No expenses found matching the criteria.")
    /\ (Sqlite.INT64_MIN <= limit < 0 ->
        fst (list_expenses category start_date end_date limit
               (Table rows seq))
        = list_render
            (Sqlite.order_by_date_id_desc
               (filter (satisfies category start_date end_date) rows))
        /\ Permutation
             (filter (satisfies category start_date end_date) rows)
             (list_query category start_date end_date limit rows)
        /\ forall r,
             In r rows ->
             satisfies category start_date end_date r = true ->
             Text.contains (list_line r)
               (fst (list_expenses category start_date end_date limit
                       (Table rows seq))) = true)
    /\ (limit < Sqlite.INT64_MIN ->
        fst (list_expenses category start_date end_date limit
               (Table rows seq))
        = "Error: Python int too large to convert to SQLite INTEGER").
Proof.
  intros category start_date end_date limit rows seq.
  split; [|split].
  - intros ->. reflexivity.
  - intros L.
    rewrite list_expenses_on_table
      by (apply fits_int64_range; unfold Sqlite.INT64_MAX; lia).
    rewrite list_query_selects. cbn [fst].
    rewrite limit_all by lia. repeat split.
    + apply order_by_permutation.
    + intros r Hr Hs. apply render_contains.
      eapply Permutation_in; [apply order_by_permutation|].
      apply filter_In. auto.
  - intros L. rewrite list_expenses_out_of_range; [reflexivity|].
    apply fits_int64_outside. now left.
Qed.

Lemma list_limit_zero_and_negative_witness :
  fst (list_expenses None None None 0 Sample.dated_store)
  = "No expenses found matching the criteria."
  /\ Permutation
       (filter (satisfies None None None) (rows_of Sample.dated_store))
       (list_query None None None (-3) (rows_of Sample.dated_store))
  /\ fst (list_expenses None None None (-9223372036854775809)
            Sample.dated_store)
     = "Error: Python int too large to convert to SQLite INTEGER".
Proof.
  destruct (list_limit_zero_and_negative None None None 0
              (rows_of Sample.dated_store) 3) as (Z0 & _ & _).
  destruct (list_limit_zero_and_negative None None None (-3)
              (rows_of Sample.dated_store) 3) as (_ & N & _).
  destruct (list_limit_zero_and_negative None None None
              (-9223372036854775809) (rows_of Sample.dated_store) 3)
    as (_ & _ & B).
  split; [|split].
  - apply Z0. reflexivity.
  - apply N. unfold Sqlite.INT64_MIN. lia.
  - apply B. unfold Sqlite.INT64_MIN. lia.
Defined.

(* ------------------------------------------------------------------ *)
(** ** Empty strings for optional arguments *)




(** An empty [subcategory] is not among the arguments above: it is stored
    as the empty text, where an omitted one is stored as NULL. *)
Example empty_subcategory_is_stored :
  snd (add_expense Sample.today (Float.of_Z 7) "Food" (Some "") None None
         Sample.fresh)
  = Table [Sqlite.mkRow 1 (Float.of_Z 7) Sample.today "Food" (Some "") None] 1
  /\ snd (add_expense Sample.today (Float.of_Z 7) "Food" None None None
            Sample.fresh)
     = Table [Sqlite.mkRow 1 (Float.of_Z 7) Sample.today "Food" None None] 1.
Proof. split; reflexivity. Qed.

(* ------------------------------------------------------------------ *)
(** ** Order and size of a listing *)

(** With [limit = -1] a table of one record is listed in full: one row
    is returned, which is more than [limit].  With [limit = 2^63] the
    matching row is not returned: the answer is the error text of the
    failed binding. *)
Lemma list_limit_negative_counterexample :
  let db := run_adds Sample.today (Sample.same_day_calls 1 "2024-02-01")
              Sample.fresh in
  fst (list_expenses None None None (-1) db)
  = list_render [Sqlite.mkRow 1 (Float.of_Z 3) "2024-02-01" "Coffee" None None]
  /\ ~ (Z.of_nat
         (List.length (list_query None None None (-1) (rows_of db))) <= -1)
  /\ fst (list_expenses None None None 9223372036854775808 db)
     = "Error: Python int too large to convert to SQLite INTEGER".
Proof.
  split; [reflexivity|split; [|reflexivity]].
  vm_compute. intros H. apply H. reflexivity.
Qed.

(** C5 (amended). For every table and filters, the matching rows in
    order of date descending and then id descending are what
    [list_expenses] lists, for a [limit] within the 64-bit range: all of
    them when [limit] is negative, and when it is not, the leading ones,
    as many as the smaller of [limit] and their number.  A [limit]
    outside the 64-bit range is answered with the error text of the
    binding.  Omitting [limit] means 20. *)
Theorem list_is_ordered_and_limited :
  forall (category start_date end_date : option string) (limit : Z)
         (rows : list Row) (seq : Z),
    let matching :=
      Sqlite.order_by_date_id_desc
        (filter (satisfies category start_date end_date) rows) in
    let answer :=
      fst (list_expenses category start_date end_date limit (Table rows seq))
    in
    StronglySorted listed_before matching
    /\ (forall r, In r matching
                  <-> In r rows
                      /\ satisfies category start_date end_date r = true)
    /\ List.length matching
       = List.length (filter (satisfies category start_date end_date) rows)
    /\ (Sqlite.INT64_MIN <= limit < 0 -> answer = list_render matching)
    /\ (0 <= limit <= Sqlite.INT64_MAX ->
        exists listed rest,
          answer = list_render listed
          /\ matching = (listed ++ rest)%list
          /\ StronglySorted listed_before listed
          /\ Z.of_nat (List.length listed)
             = Z.min limit (Z.of_nat (List.length matching)))
    /\ (limit < Sqlite.INT64_MIN \/ Sqlite.INT64_MAX < limit ->
        answer = "Error: Python int too large to convert to SQLite INTEGER")
    /\ list_expenses_default category start_date end_date
       = list_expenses category start_date end_date 20.
Proof.
  intros category start_date end_date limit rows seq matching answer.
  pose proof (order_by_sorted
                (filter (satisfies category start_date end_date) rows)) as S.
  pose proof (order_by_permutation
                (filter (satisfies category start_date end_date) rows)) as P.
  fold matching in S, P.
  split; [exact S|split; [|split; [|split; [|split; [|split]]]]].
  - intros r. rewrite <- filter_In. split; intros H.
    + eapply Permutation_in; [apply Permutation_sym, P | exact H].
    + eapply Permutation_in; [exact P | exact H].
  - symmetry. apply Permutation_length, P.
  - intros L. unfold answer.
    rewrite list_expenses_on_table
      by (apply fits_int64_range; unfold Sqlite.INT64_MAX; lia).
    cbn [fst]. rewrite list_query_selects. fold matching.
    now rewrite limit_all by lia.
  - intros L. unfold answer.
    rewrite list_expenses_on_table
      by (apply fits_int64_range; unfold Sqlite.INT64_MIN; lia).
    cbn [fst]. rewrite list_query_selects. fold matching.
    exists (Sqlite.limit limit matching).
    destruct (limit_prefix limit matching) as [rest E].
    exists rest. split; [reflexivity|split; [exact E|split]].
    + apply strongly_sorted_prefix with (l2 := rest). now rewrite <- E.
    + unfold Sqlite.limit. destruct (Z.ltb_spec limit 0); [lia|].
      rewrite length_firstn. lia.
  - intros L. unfold answer.
    rewrite list_expenses_out_of_range; [reflexivity|].
    now apply fits_int64_outside.
  - reflexivity.
Qed.

Lemma list_is_ordered_and_limited_witness :
  fst (list_expenses None None None (-1) Sample.dated_store)
  = list_render
      (Sqlite.order_by_date_id_desc
         (filter (satisfies None None None) (rows_of Sample.dated_store)))
  /\ (exists listed rest,
         fst (list_expenses None (Some "2024-01-10") None 1
                Sample.dated_store)
         = list_render listed
         /\ Sqlite.order_by_date_id_desc
              (filter (satisfies None (Some "2024-01-10") None)
                 (rows_of Sample.dated_store))
            = (listed ++ rest)%list
         /\ StronglySorted listed_before listed
         /\ Z.of_nat (List.length listed)
            = Z.min 1
                (Z.of_nat
                   (List.length
                      (Sqlite.order_by_date_id_desc
                         (filter (satisfies None (Some "2024-01-10") None)
                            (rows_of Sample.dated_store))))))
  /\ fst (list_expenses None None None 9223372036854775808
            Sample.dated_store)
     = "Error: Python int too large to convert to SQLite INTEGER".
Proof.
  destruct (list_is_ordered_and_limited None None None (-1)
              (rows_of Sample.dated_store) 3) as (_ & _ & _ & N & _).
  destruct (list_is_ordered_and_limited None (Some "2024-01-10") None 1
              (rows_of Sample.dated_store) 3) as (_ & _ & _ & _ & B & _).
  destruct (list_is_ordered_and_limited None None None 9223372036854775808
              (rows_of Sample.dated_store) 3)
    as (_ & _ & _ & _ & _ & O & _).
  split; [|split].
  - apply N. unfold Sqlite.INT64_MIN. lia.
  - apply B. unfold Sqlite.INT64_MAX. lia.
  - apply O. right. unfold Sqlite.INT64_MAX. lia.
Defined.

(** Two records of one date: the one inserted later is listed first. *)
Example same_day_later_first :
  fst (list_expenses_default None None None
         (run_adds Sample.today (Sample.same_day_calls 2 "2024-02-01")
            Sample.fresh))
  = list_render
      [Sqlite.mkRow 2 (Float.of_Z 3) "2024-02-01" "Coffee" None None;
       Sqlite.mkRow 1 (Float.of_Z 3) "2024-02-01" "Coffee" None None].
Proof. reflexivity. Qed.

(* ------------------------------------------------------------------ *)
(** ** Which records a query selects *)

(** Three ways in which a record that satisfies the filters is left
    out, or one that does not is included.  Twenty-one records of the
    category Coffee, filtered by that category with [limit] omitted: the
    record stored first satisfies the filter and is not in the listing.
    An end date given as the empty string: the record of 2024-01-01 is not
    at or before it, as strings, and is listed.  A [limit] of 2^63: the
    records of the category Food are not listed, the answer is an error
    text. *)
Lemma filter_inclusion_counterexample :
  let db := run_adds Sample.today (Sample.same_day_calls 21 "2024-02-01")
              Sample.fresh in
  let first := Sqlite.mkRow 1 (Float.of_Z 3) "2024-02-01" "Coffee" None None in
  let early :=
    Sqlite.mkRow 1 (Float.cents 1250) "2024-01-01" "Food" None None in
  (In first (rows_of db)
   /\ String.eqb (Sqlite.category first) "Coffee" = true
   /\ Text.contains (list_line first)
        (fst (list_expenses_default (Some "Coffee") None None db)) = false)
  /\ (In early (rows_of Sample.dated_store)
      /\ String.leb (Sqlite.date early) "" = false
      /\ Text.contains (list_line early)
           (fst (list_expenses_default None None (Some "")
                   Sample.dated_store)) = true)
  /\ (In early (rows_of Sample.dated_store)
      /\ String.eqb (Sqlite.category early) "Food" = true
      /\ fst (list_expenses (Some "Food") None None 9223372036854775808
                Sample.dated_store)
         = "Error: Python int too large to convert to SQLite INTEGER").
Proof.
  intros db first early. split; [|split]; (split; [|split]).
  - vm_compute. auto.
  - reflexivity.
  - vm_compute. reflexivity.
  - vm_compute. auto.
  - reflexivity.
  - vm_compute. reflexivity.
  - vm_compute. auto.
  - reflexivity.
  - vm_compute. reflexivity.
Qed.

(** C6 (amended). In [list_expenses] and in [get_summary] the records
    selected are exactly those of the table that satisfy every supplied
    filter, an empty string counting as not supplied: category equal to
    the given one (listing only), date at least [start_date] and at most
    [end_date], bounds included, dates compared as strings.
    [get_summary] groups and totals all selected records.
    [list_expenses], for a [limit] within the 64-bit range, lists the
    selected records in listing order up to [limit]: every listed record
    is a selected one, and every selected record has its line in the
    answer when [limit] is negative or not below their number.  With
    records dated 2024-01-01, 2024-01-15 and 2024-02-01, the bounds
    2024-01-10 and 2024-01-31 list exactly the record of 2024-01-15. *)
Theorem queries_select_by_filters :
  forall (category start_date end_date : option string) (limit : Z)
         (rows : list Row) (seq : Z),
    let selected := filter (satisfies category start_date end_date) rows in
    let summed := filter (satisfies None start_date end_date) rows in
    let answer :=
      fst (list_expenses category start_date end_date limit (Table rows seq))
    in
    (forall r, In r selected
               <-> In r rows
                   /\ when_supplied category
                        (fun c => String.eqb (Sqlite.category r) c) = true
                   /\ when_supplied start_date
                        (fun s => String.leb s (Sqlite.date r)) = true
                   /\ when_supplied end_date
                        (fun e => String.leb (Sqlite.date r) e) = true)
    /\ (Sqlite.INT64_MIN <= limit <= Sqlite.INT64_MAX ->
        answer
        = list_render
            (Sqlite.limit limit (Sqlite.order_by_date_id_desc selected))
        /\ (forall r,
               In r (Sqlite.limit limit
                       (Sqlite.order_by_date_id_desc selected)) ->
               In r selected)
        /\ (limit < 0 \/ Z.of_nat (List.length selected) <= limit ->
            answer = list_render (Sqlite.order_by_date_id_desc selected)
            /\ forall r, In r selected ->
                         Text.contains (list_line r) answer = true))
    /\ fst (get_summary start_date end_date (Table rows seq))
       = match Sqlite.order_groups (Sqlite.group_by summed) with
         | [] => "No data recorded for the selected period."
         | groups =>
             Text.join (String "010" "")
               (("Expense Summary Report ("
                 ++ Text.or_else start_date "Beginning" ++ " to "
                 ++ Text.or_else end_date "Now" ++ ")")
                :: ("TOTAL SPEND: $"
                    ++ Float.fmt_2f (or_zero (Sqlite.sum_amount summed)))
                :: Text.times "-" 40
                :: summary_lines None groups)
         end
    /\ fst (list_expenses None (Some "2024-01-10") (Some "2024-01-31") 20
              Sample.dated_store)
       = list_render
           [Sqlite.mkRow 2 (Float.cents 799) "2024-01-15" "Food"
              (Some "Grocery") None].
Proof.
  intros category start_date end_date limit rows seq selected summed answer.
  split; [|split; [|split]].
  - intros r. unfold selected. rewrite filter_In. unfold satisfies.
    rewrite !andb_true_iff. tauto.
  - intros F. apply fits_int64_range in F.
    assert (A : answer
                = list_render
                    (Sqlite.limit limit
                       (Sqlite.order_by_date_id_desc selected))).
    { unfold answer. rewrite list_expenses_on_table by exact F.
      cbn [fst]. now rewrite list_query_selects. }
    split; [exact A|split].
    + intros r H. apply limit_incl in H.
      eapply Permutation_in;
        [apply Permutation_sym, order_by_permutation | exact H].
    + intros L.
      assert (E : Sqlite.limit limit (Sqlite.order_by_date_id_desc selected)
                  = Sqlite.order_by_date_id_desc selected).
      { apply limit_all. destruct L as [L|L]; [now left | right].
        now rewrite <- (Permutation_length (order_by_permutation selected)). }
      rewrite A, E. split; [reflexivity|].
      intros r H. apply render_contains.
      eapply Permutation_in; [apply order_by_permutation | exact H].
  - rewrite get_summary_on_table. cbn [fst].
    unfold summary_query, total_query. rewrite filter_summary_conds.
    reflexivity.
  - vm_compute. reflexivity.
Qed.

Lemma queries_select_by_filters_witness :
  Text.contains
    (list_line
       (Sqlite.mkRow 2 (Float.cents 799) "2024-01-15" "Food" (Some "Grocery")
          None))
    (fst (list_expenses (Some "Food") None None 2 Sample.dated_store))
  = true.
Proof.
  destruct (queries_select_by_filters (Some "Food") None None 2
              (rows_of Sample.dated_store) 3) as (_ & H & _).
  destruct H as (_ & _ & H).
  - unfold Sqlite.INT64_MIN, Sqlite.INT64_MAX. lia.
  - destruct H as [_ H].
    + right. vm_compute. discriminate.
    + apply H. vm_compute. auto.
Defined.

(* ------------------------------------------------------------------ *)
(** ** Round trip: add, then list *)

Section RoundTripFacts.

Lemma filter_length_permutation {A} (f : A -> bool) (l l' : list A) :
  Permutation l l' ->
  List.length (filter f l) = List.length (filter f l').
Proof.
  induction 1 as [|x l l' P IH|x y l|l l' l'' P1 IH1 P2 IH2]; simpl; auto.
  - destruct (f x); simpl; congruence.
  - destruct (f x), (f y); reflexivity.
  - congruence.
Qed.

Lemma filter_keeps_all {A} (f : A -> bool) (l : list A) :
  (forall y, In y l -> f y = true) -> filter f l = l.
Proof.
  induction l as [|x l IH]; simpl; intros H; auto.
  rewrite (H x) by auto. f_equal. apply IH. auto.
Qed.

Lemma sorted_front_before {A} (R : A -> A -> Prop) (l1 l2 : list A) (x : A) :
  StronglySorted R (l1 ++ x :: l2)%list -> forall y, In y l1 -> R y x.
Proof.
  induction l1 as [|z l1 IH]; simpl; intros H y Hy; [destruct Hy|].
  inversion H as [|? ? Hs Hall]; subst.
  destruct Hy as [->|Hy]; [|now apply IH].
  rewrite Forall_forall in Hall. apply Hall, in_or_app. right. now left.
Qed.

Lemma in_firstn_after {A} (l1 l2 : list A) (x : A) (k : nat) :
  (List.length l1 < k)%nat -> In x (firstn k (l1 ++ x :: l2)%list).
Proof.
  intros H. rewrite firstn_app. apply in_or_app. right.
  destruct (k - List.length l1)%nat eqn:E; [lia|]. now left.
Qed.

(** A record newer in id than all others is within the first [k] rows
    of the listing order when fewer than [k] records are dated after it. *)
Lemma new_row_listed (rows : list Row) (x : Row) (k : nat) :
  (forall y, In y rows -> Sqlite.id y < Sqlite.id x) ->
  (List.length (filter (dated_after (Sqlite.date x)) rows) < k)%nat ->
  In x (firstn k (Sqlite.order_by_date_id_desc (rows ++ [x]))).
Proof.
  intros New Few.
  pose proof (order_by_permutation (rows ++ [x])) as P.
  pose proof (order_by_sorted (rows ++ [x])) as S.
  assert (I : In x (Sqlite.order_by_date_id_desc (rows ++ [x]))).
  { eapply Permutation_in; [exact P|]. apply in_or_app. right. now left. }
  apply in_split in I. destruct I as (l1 & l2 & E).
  rewrite E in *. apply in_firstn_after.
  apply Permutation_app_inv in P. rewrite app_nil_r in P.
  assert (A : forall y, In y l1 -> dated_after (Sqlite.date x) y = true).
  { intros y Hy.
    assert (Hr : In y rows).
    { eapply Permutation_in; [apply Permutation_sym, P|].
      apply in_or_app. now left. }
    destruct (sorted_front_before _ _ _ _ S y Hy) as [G|[_ L]].
    - unfold dated_after, String.ltb.
      rewrite String.compare_antisym, G. reflexivity.
    - apply New in Hr. lia. }
  rewrite <- (filter_keeps_all _ l1 A).
  eapply Nat.le_lt_trans; [|exact Few].
  rewrite (filter_length_permutation _ _ _ P), filter_app, length_app. lia.
Qed.

End RoundTripFacts.

(** Twenty records of 2024-02-01 are stored; a valid record dated
    2024-01-01 is added and reported as stored; the listing with no
    filters and [limit] omitted does not contain it. *)
Lemma round_trip_counterexample :
  let db := run_adds Sample.today (Sample.same_day_calls 20 "2024-02-01")
              Sample.fresh in
  let added := add_expense Sample.today (Float.of_Z 5) "Food" None None
                 (Some "2024-01-01") db in
  let stored := Sqlite.mkRow 21 (Float.of_Z 5) "2024-01-01" "Food" None None in
  Float.ltb Float.zero (Float.of_Z 5) = true
  /\ fst added
     = "Successfully added expense ID 21: Food (N/A) - $5.00 on 2024-01-01"
  /\ In stored (rows_of (snd added))
  /\ Text.contains (list_line stored)
       (fst (list_expenses_default None None None (snd added)))
     = false
  /\ Text.contains "2024-01-01"
       (fst (list_expenses_default None None None (snd added)))
     = false.
Proof.
  intros db added stored. split; [|split; [|split; [|split]]].
  - reflexivity.
  - vm_compute. reflexivity.
  - vm_compute. tauto.
  - vm_compute. reflexivity.
  - vm_compute. reflexivity.
Qed.

(** C4 (amended). Round trip: for every amount above zero and every
    table with an id to spare, [add_expense] followed by [list_expenses]
    with no filters returns a text that contains the line of the added
    record, whenever fewer than [limit] stored records are dated after it,
    [limit] being 20 when omitted and at most 2^63 - 1 when given; the
    amount shown on that line is the input amount rendered to two decimal
    places. *)
Theorem round_trip_within_limit :
  forall (today : string) (amount : float) (category : string)
         (subcategory note date : option string) (limit : Z)
         (rows : list Row) (seq : Z),
    Float.ltb Float.zero amount = true ->
    Z.max seq (Sqlite.max_rowid rows) < Sqlite.INT64_MAX ->
    Z.of_nat
      (List.length (filter (dated_after (Text.or_else date today)) rows))
    < limit ->
    limit <= Sqlite.INT64_MAX ->
    let added :=
      add_expense today amount category subcategory note date (Table rows seq)
    in
    let stored :=
      Sqlite.mkRow (next_id rows seq) amount (Text.or_else date today)
        category subcategory note in
    fst added
    = added_message (next_id rows seq) amount category subcategory
        (Text.or_else date today)
    /\ Text.contains (list_line stored)
         (fst (list_expenses None None None limit (snd added))) = true
    /\ (limit = 20 ->
        Text.contains (list_line stored)
          (fst (list_expenses_default None None None (snd added))) = true)
    /\ list_line stored
       = Text.ljust 4 (Text.str_int (next_id rows seq)) ++ " | "
         ++ Text.ljust 10 (Text.or_else date today) ++ " | "
         ++ Text.ljust 12 category ++ " | "
         ++ Text.ljust 12 (Text.or_else subcategory "N/A") ++ " | "
         ++ "$" ++ Text.ljust 7 (Float.fmt_2f amount) ++ " | "
         ++ Text.or_else note "".
Proof.
  intros today amount category subcategory note date limit rows seq P F C R
         added stored.
  destruct (positive_passes_validation amount P) as [V N].
  assert (E : added
              = (added_message (next_id rows seq) amount category subcategory
                   (Text.or_else date today),
                 Table (rows ++ [stored]) (next_id rows seq)))
    by (apply add_expense_stores; assumption).
  assert (L : Text.contains (list_line stored)
                (fst (list_expenses None None None limit (snd added))) = true).
  { rewrite E. cbn [snd].
    rewrite list_expenses_on_table
      by (apply fits_int64_range; unfold Sqlite.INT64_MIN; lia).
    cbn [fst]. apply render_contains.
    rewrite list_query_selects, filter_unfiltered.
    unfold Sqlite.limit. destruct (Z.ltb_spec limit 0); [lia|].
    apply new_row_listed.
    - intros y Hy. apply max_rowid_bound in Hy.
      unfold stored, next_id. cbn [Sqlite.id]. lia.
    - unfold stored. cbn [Sqlite.date]. lia. }
  split; [now rewrite E|split; [exact L|split; [|reflexivity]]].
  intros ->. exact L.
Qed.

Lemma round_trip_within_limit_witness :
  Text.contains
    (list_line
       (Sqlite.mkRow 4 (Float.cents 1999) Sample.today "Books" None
          (Some "novel")))
    (fst (list_expenses_default None None None
            (snd (add_expense Sample.today (Float.cents 1999) "Books" None
                    (Some "novel") None Sample.dated_store))))
  = true.
Proof.
  destruct (round_trip_within_limit Sample.today (Float.cents 1999) "Books"
              None (Some "novel") None 20 (rows_of Sample.dated_store) 3)
    as (_ & _ & H & _).
  - reflexivity.
  - vm_compute. reflexivity.
  - vm_compute. reflexivity.
  - unfold Sqlite.INT64_MAX. lia.
  - apply H. reflexivity.
Defined.

(* ------------------------------------------------------------------ *)
(** ** The category lines of the summary *)

(** C1 (the code at the specification's example). With the records
    Food/Grocery 10, Food/Restaurant 30 and Transport 5, the Food records
    sum to 40.00 over two entries, yet the FOOD line of [get_summary]
    reads "Total: $30.00 (1 entries)": it shows the sum and count of the
    first subcategory group of the category, not of the category. *)
Theorem summary_heading_shows_first_group :
  fst (get_summary None None Sample.summary_store)
  = Text.join (String "010" "")
      [ "Expense Summary Report (Beginning to Now)";
        "TOTAL SPEND: $45.00";
        "----------------------------------------";
        "";
        "[FOOD] - Total: $30.00 (1 entries)";
        "  └─ Restaurant: $30.00";
        "  └─ Grocery: $10.00";
        "";
        "[TRANSPORT] - Total: $5.00 (1 entries)" ]
  /\ Text.contains "$40.00"
       (fst (get_summary None None Sample.summary_store)) = false
  /\ option_map Float.fmt_2f
       (Sqlite.sum_amount
          (category_rows "Food" (rows_of Sample.summary_store)))
     = Some "40.00"
  /\ List.length (category_rows "Food" (rows_of Sample.summary_store))
     = 2%nat.
Proof.
  split; [|split; [|split]]; vm_compute; reflexivity.
Qed.

(* ------------------------------------------------------------------ *)
(** ** Storage failures *)

(** C2 (the code at a failing store). When the database cannot be
    opened, or holds no [expenses] table, the three tools answer with an
    error text, while the lifetime-summary resource raises: the exception
    leaves [get_resource_summary], which has no handler. *)
Theorem lifetime_summary_raises :
  forall (today db_path e : string),
    get_resource_summary db_path (Unavailable e) = (Raised e, Unavailable e)
    /\ get_resource_summary db_path NoTable
       = (Raised "no such table: expenses", NoTable)
    /\ (forall amount category subcategory note date,
           fst (add_expense today amount category subcategory note date
                  (Unavailable e))
           = if Float.leb amount Float.zero
             then "Error: Amount must be a positive number."
             else "Error: Failed to save expense to database: " ++ e)
    /\ (forall category start_date end_date limit,
           fst (list_expenses category start_date end_date limit
                  (Unavailable e))
           = "Error: " ++ e)
    /\ (forall start_date end_date,
           fst (get_summary start_date end_date (Unavailable e))
           = "Error gathering summary: " ++ e)
    /\ fst (list_expenses None None None 20 NoTable)
       = "Error: no such table: expenses".
Proof.
  intros today db_path e. repeat split.
  intros amount category subcategory note date. unfold add_expense.
  destruct (Float.leb amount Float.zero); reflexivity.
Qed.

(* ------------------------------------------------------------------ *)
(** ** Facts about grouping *)

Section GroupFacts.

Lemma key_eqb_eq (c1 : string) (s1 : option string)
    (c2 : string) (s2 : option string) :
  Sqlite.key_eqb c1 s1 c2 s2 = true <-> (c1, s1) = (c2, s2).
Proof.
  unfold Sqlite.key_eqb. rewrite andb_true_iff, String.eqb_eq.
  destruct s1 as [x|], s2 as [y|].
  - rewrite String.eqb_eq.
    split; [intros [-> ->]; reflexivity | intros H; injection H; auto].
  - split; [intros [_ H]; discriminate | discriminate].
  - split; [intros [_ H]; discriminate | discriminate].
  - split; [intros [-> _]; reflexivity | intros H; injection H; auto].
Qed.

Lemma key_eqb_row (g : Sqlite.Group) (r : Row) :
  Sqlite.key_eqb (fst (group_key g)) (snd (group_key g))
    (Sqlite.category r) (Sqlite.subcategory r) = true
  <-> group_key g = row_key r.
Proof.
  rewrite key_eqb_eq. unfold row_key. destruct (group_key g); reflexivity.
Qed.

Lemma key_dec (k1 k2 : string * option string) : {k1 = k2} + {k1 <> k2}.
Proof. repeat decide equality. Qed.

Lemma group_by_snoc (rows : list Row) (r : Row) :
  Sqlite.group_by (rows ++ [r])
  = Sqlite.accumulate r (Sqlite.group_by rows).
Proof. unfold Sqlite.group_by. now rewrite fold_left_app. Qed.

Lemma members_snoc_same k (rows : list Row) (r : Row) :
  k = row_key r -> members k (rows ++ [r]) = (members k rows ++ [r])%list.
Proof.
  intros ->. unfold members. rewrite filter_app. f_equal. cbn [filter].
  assert (T : Sqlite.key_eqb (fst (row_key r)) (snd (row_key r))
                (Sqlite.category r) (Sqlite.subcategory r) = true)
    by now apply key_eqb_eq.
  now rewrite T.
Qed.

Lemma members_snoc_other k (rows : list Row) (r : Row) :
  k <> row_key r -> members k (rows ++ [r]) = members k rows.
Proof.
  intros N. unfold members. rewrite filter_app. cbn [filter].
  destruct (Sqlite.key_eqb _ _ _ _) eqn:K.
  - apply key_eqb_eq in K. destruct k. contradiction.
  - apply app_nil_r.
Qed.

Lemma running_sum_snoc (rows : list Row) (r : Row) :
  running_sum (rows ++ [r])
  = Float.add (running_sum rows) (Sqlite.amount r).
Proof. unfold running_sum. now rewrite fold_left_app. Qed.

(** The keys after one more record. *)
Lemma accumulate_keys_known (r : Row) (gs : list Sqlite.Group) :
  In (row_key r) (map group_key gs) ->
  map group_key (Sqlite.accumulate r gs) = map group_key gs.
Proof.
  induction gs as [|[[[c s] t] n] gs IH]; intros I; [destruct I|].
  cbn [Sqlite.accumulate].
  destruct (Sqlite.key_eqb c s (Sqlite.category r) (Sqlite.subcategory r))
    eqn:K; [reflexivity|].
  cbn [map]. f_equal. apply IH. destruct I as [E|I]; auto.
  exfalso. apply key_eqb_eq in E. congruence.
Qed.

Lemma accumulate_keys_new (r : Row) (gs : list Sqlite.Group) :
  ~ In (row_key r) (map group_key gs) ->
  map group_key (Sqlite.accumulate r gs)
  = (map group_key gs ++ [row_key r])%list.
Proof.
  induction gs as [|[[[c s] t] n] gs IH]; intros I; [reflexivity|].
  cbn [Sqlite.accumulate].
  destruct (Sqlite.key_eqb c s (Sqlite.category r) (Sqlite.subcategory r))
    eqn:K.
  - exfalso. apply I. left. apply key_eqb_eq in K. exact K.
  - cbn [map app]. f_equal. apply IH. intros J. apply I. now right.
Qed.

(** The groups after one more record, among rows with distinct keys. *)
Lemma accumulate_in (r : Row) (gs : list Sqlite.Group) (g : Sqlite.Group) :
  NoDup (map group_key gs) ->
  (In g (Sqlite.accumulate r gs)
   <-> (In g gs /\ group_key g <> row_key r)
       \/ (exists t n,
              In (row_key r, t, n) gs
              /\ g = (row_key r, Float.add t (Sqlite.amount r), n + 1))
       \/ (~ In (row_key r) (map group_key gs)
           /\ g = (row_key r, Float.add Float.zero (Sqlite.amount r), 1))).
Proof.
  induction gs as [|[[[c s] t] n] gs IH]; intros D.
  - cbn. split.
    + intros [<-|[]]. right. right. split; auto.
    + intros [[[] _]|[(t & n & [] & _)|[_ ->]]]. now left.
  - inversion D as [|? ? Hn Hd]; subst. specialize (IH Hd).
    cbn [Sqlite.accumulate].
    destruct (Sqlite.key_eqb c s (Sqlite.category r) (Sqlite.subcategory r))
      eqn:K.
    + apply key_eqb_eq in K. fold (row_key r) in K.
      cbn [group_key fst] in Hn. rewrite K in Hn. split.
      * intros [<-|H].
        -- right. left. exists t, n. rewrite <- K. split; [now left | auto].
        -- left. split; [now right|]. intros E. apply Hn.
           rewrite <- E. now apply in_map.
      * intros [[[E|H] N]|[(t' & n' & [E|H] & ->)|[N _]]].
        -- subst g. exfalso. apply N. exact K.
        -- now right.
        -- left. injection E as E1 E2 E3. subst t' n'. now rewrite K.
        -- exfalso. apply Hn.
           change (row_key r) with (group_key (row_key r, t', n')).
           now apply in_map.
        -- exfalso. apply N. left. exact K.
    + assert (N : (c, s) <> row_key r).
      { intros E. apply key_eqb_eq in E. congruence. }
      split.
      * intros [<-|H].
        -- left. split; [now left | exact N].
        -- apply IH in H.
           destruct H as [[H M]|[(t' & n' & H & ->)|[M ->]]].
           ++ left. split; [now right | exact M].
           ++ right. left. exists t', n'. split; [now right | auto].
           ++ right. right. split; auto.
              intros [E|E]; [now apply N | now apply M].
      * intros [[[E|H] M]|[(t' & n' & [E|H] & ->)|[M ->]]].
        -- now left.
        -- right. apply IH. left. auto.
        -- exfalso. apply N. unfold row_key in *. congruence.
        -- right. apply IH. right. left. eauto.
        -- right. apply IH. right. right. split; auto.
           intros E. apply M. now right.
Qed.

Lemma accumulate_count_sum (r : Row) (gs : list Sqlite.Group) :
  count_sum (Sqlite.accumulate r gs) = count_sum gs + 1.
Proof.
  induction gs as [|[[[c s] t] n] gs IH]; [reflexivity|].
  cbn [Sqlite.accumulate].
  destruct (Sqlite.key_eqb c s (Sqlite.category r) (Sqlite.subcategory r));
    unfold count_sum, group_count in *; simpl in *; lia.
Qed.

End GroupFacts.

Section GroupByFacts.

Lemma members_in k (rows : list Row) (r : Row) :
  In r (members k rows) <-> In r rows /\ row_key r = k.
Proof.
  unfold members. rewrite filter_In, key_eqb_eq. unfold row_key.
  destruct k. cbn [fst snd]. split; intros [H E]; split; congruence.
Qed.

Lemma nodup_snoc {A} (l : list A) (x : A) :
  NoDup l -> ~ In x l -> NoDup (l ++ [x]).
Proof.
  intros D N. apply Permutation_NoDup with (l := x :: l).
  - apply Permutation_cons_append.
  - now constructor.
Qed.

Lemma group_by_grouped (rows : list Row) : grouped rows (Sqlite.group_by rows).
Proof.
  induction rows as [|r rows IH] using rev_ind.
  - repeat split; cbn; try constructor; intros; contradiction.
  - destruct IH as (D & G & K). rewrite group_by_snoc.
    set (gs := Sqlite.group_by rows) in *.
    destruct (in_dec key_dec (row_key r) (map group_key gs)) as [I|I].
    + split; [|split].
      * now rewrite accumulate_keys_known.
      * intros g Hg. apply (accumulate_in r gs g D) in Hg.
        destruct Hg as [[Hg N]|[(t & n & Hg & ->)|[N _]]];
          [| |contradiction].
        -- rewrite members_snoc_other by exact N. now apply G.
        -- cbn [group_key group_sum group_count fst snd].
           rewrite members_snoc_same by reflexivity.
           destruct (G _ Hg) as (_ & S & C).
           cbn [group_key group_sum group_count fst snd] in S, C.
           rewrite running_sum_snoc, length_app, <- S.
           cbn [List.length]. repeat split; [|lia].
           intros E. now apply app_eq_nil in E as [_ E].
      * intros r' Hr. rewrite accumulate_keys_known by exact I.
        apply in_app_or in Hr. destruct Hr as [Hr|[<-|[]]]; auto.
    + assert (M : members (row_key r) rows = []).
      { destruct (members (row_key r) rows) as [|r0 l] eqn:E; auto.
        exfalso. apply I.
        assert (H0 : In r0 (members (row_key r) rows))
          by (rewrite E; now left).
        apply members_in in H0. destruct H0 as [H0 <-]. now apply K. }
      split; [|split].
      * rewrite accumulate_keys_new by exact I. now apply nodup_snoc.
      * intros g Hg. apply (accumulate_in r gs g D) in Hg.
        destruct Hg as [[Hg N]|[(t & n & Hg & ->)|[_ ->]]].
        -- rewrite members_snoc_other by exact N. now apply G.
        -- exfalso. apply I.
           change (row_key r) with (group_key (row_key r, t, n)).
           now apply in_map.
        -- cbn [group_key group_sum group_count fst snd].
           rewrite members_snoc_same by reflexivity. rewrite M.
           repeat split. discriminate.
      * intros r' Hr. rewrite accumulate_keys_new by exact I.
        apply in_or_app.
        apply in_app_or in Hr. destruct Hr as [Hr|[<-|[]]]; [left|right].
        -- now apply K.
        -- now left.
Qed.

Lemma group_by_count_sum (rows : list Row) :
  count_sum (Sqlite.group_by rows) = Z.of_nat (List.length rows).
Proof.
  induction rows as [|r rows IH] using rev_ind; [reflexivity|].
  rewrite group_by_snoc, accumulate_count_sum, IH, length_app.
  cbn [List.length]. lia.
Qed.

Lemma place_permutation before (g : Sqlite.Group) (l : list Sqlite.Group) :
  Permutation (Sqlite.place before g l) (g :: l).
Proof.
  induction l as [|h l IH]; cbn [Sqlite.place]; auto.
  destruct (before h g); auto.
  eapply Permutation_trans; [apply perm_skip, IH | apply perm_swap].
Qed.

Lemma sort_groups_permutation before (gs : list Sqlite.Group) :
  Permutation (Sqlite.sort_groups before gs) gs.
Proof.
  unfold Sqlite.sort_groups.
  assert (H : forall acc,
             Permutation
               (fold_left (fun acc g => Sqlite.place before g acc) gs acc)
               (gs ++ acc)).
  { induction gs as [|g gs IH]; intros acc; cbn [fold_left app]; auto.
    eapply Permutation_trans; [apply IH|].
    eapply Permutation_trans;
      [apply Permutation_app_head, place_permutation|].
    apply Permutation_sym, Permutation_middle. }
  specialize (H []). now rewrite app_nil_r in H.
Qed.

Lemma order_groups_permutation (gs : list Sqlite.Group) :
  Permutation (Sqlite.order_groups gs) gs.
Proof.
  unfold Sqlite.order_groups.
  eapply Permutation_trans; apply sort_groups_permutation.
Qed.

Lemma count_sum_permutation (l l' : list Sqlite.Group) :
  Permutation l l' -> count_sum l = count_sum l'.
Proof.
  unfold count_sum.
  induction 1; cbn [fold_right]; try lia.
Qed.

Lemma summary_query_selects start_date end_date (rows : list Row) :
  summary_query start_date end_date rows
  = Sqlite.order_groups
      (Sqlite.group_by (filter (satisfies None start_date end_date) rows)).
Proof. unfold summary_query. now rewrite filter_summary_conds. Qed.

Lemma summary_query_grouped start_date end_date (rows : list Row) :
  grouped (filter (satisfies None start_date end_date) rows)
    (summary_query start_date end_date rows).
Proof.
  rewrite summary_query_selects.
  set (sel := filter (satisfies None start_date end_date) rows).
  destruct (group_by_grouped sel) as (D & G & K).
  pose proof (order_groups_permutation (Sqlite.group_by sel)) as P.
  split; [|split].
  - eapply Permutation_NoDup; [|exact D].
    apply Permutation_sym, Permutation_map, P.
  - intros g Hg. apply G. eapply Permutation_in; [exact P | exact Hg].
  - intros r Hr. eapply Permutation_in.
    + apply Permutation_sym, Permutation_map, P.
    + now apply K.
Qed.

End GroupByFacts.

(* ------------------------------------------------------------------ *)
(** ** Facts about the lines of the summary *)

Section SummaryLineFacts.

Lemma category_le_trans (a b c : string) :
  category_le a b -> category_le b c -> category_le a c.
Proof.
  unfold category_le. intros H1 H2.
  destruct (String.compare a b) eqn:E1; [| |contradiction].
  - apply String.compare_eq_iff in E1. now subst.
  - destruct (String.compare b c) eqn:E2; [| |contradiction].
    + apply String.compare_eq_iff in E2. subst. now rewrite E1.
    + now rewrite (string_compare_lt_trans a b c).
Qed.

Lemma category_le_strict (a b : string) :
  category_le a b -> a <> b -> String.compare a b = Lt.
Proof.
  unfold category_le. intros H N.
  destruct (String.compare a b) eqn:E; auto; [|contradiction].
  apply String.compare_eq_iff in E. contradiction.
Qed.

Lemma category_lt_le_ne (c a b : string) :
  category_le c a -> a <> c -> category_le a b -> b <> c.
Proof.
  intros H1 N H2 ->.
  pose proof (category_le_strict c a H1 (fun E => N (eq_sym E))) as L.
  unfold category_le in H2. apply H2.
  now rewrite String.compare_antisym, L.
Qed.

Lemma group_before_true (h g : Sqlite.Group) :
  Sqlite.group_before h g = true -> by_category h g.
Proof.
  destruct h as [[[c1 s1] t1] n1], g as [[[c2 s2] t2] n2].
  unfold by_category, category_le, Sqlite.group_before, group_category,
    group_key.
  cbn [fst snd].
  destruct (String.compare c1 c2); intros H; congruence.
Qed.

Lemma group_before_false (h g : Sqlite.Group) :
  Sqlite.group_before h g = false -> by_category g h.
Proof.
  destruct h as [[[c1 s1] t1] n1], g as [[[c2 s2] t2] n2].
  unfold by_category, category_le, Sqlite.group_before, group_category,
    group_key.
  cbn [fst snd].
  rewrite (String.compare_antisym c2 c1).
  destruct (String.compare c1 c2); cbn [CompOpp]; intros H; congruence.
Qed.

Lemma place_by_category (g : Sqlite.Group) (l : list Sqlite.Group) :
  StronglySorted by_category l ->
  StronglySorted by_category (Sqlite.place Sqlite.group_before g l).
Proof.
  induction l as [|h l IH]; intros S; cbn [Sqlite.place].
  - repeat constructor.
  - inversion S as [|? ? S' A]; subst.
    destruct (Sqlite.group_before h g) eqn:B.
    + constructor; [now apply IH|].
      rewrite Forall_forall in *. intros x Hx.
      eapply Permutation_in in Hx; [|apply place_permutation].
      destruct Hx as [<-|Hx]; [now apply group_before_true | now apply A].
    + apply group_before_false in B. constructor; [exact S|].
      constructor; [exact B|].
      rewrite Forall_forall in *. intros x Hx.
      unfold by_category in *. eapply category_le_trans; [exact B|].
      now apply A.
Qed.

Lemma order_groups_by_category (gs : list Sqlite.Group) :
  StronglySorted by_category (Sqlite.order_groups gs).
Proof.
  unfold Sqlite.order_groups, Sqlite.sort_groups.
  generalize (fold_left
                (fun acc g => Sqlite.place Sqlite.formed_before g acc) gs []).
  intros formed.
  assert (H : forall acc,
             StronglySorted by_category acc ->
             StronglySorted by_category
               (fold_left
                  (fun acc g => Sqlite.place Sqlite.group_before g acc)
                  formed acc)).
  { induction formed as [|g formed IH]; intros acc S; cbn [fold_left]; auto.
    apply IH, place_by_category, S. }
  apply H. constructor.
Qed.

Lemma prefix_append (p rest : string) : String.prefix p (p ++ rest) = true.
Proof.
  induction p as [|c p IH]; cbn.
  - now destruct rest.
  - destruct (ascii_dec c c); [exact IH | contradiction].
Qed.

Lemma heading_is_heading cat amt count :
  is_heading_line (category_heading cat amt count) = true
  /\ is_subcategory_line (category_heading cat amt count) = false.
Proof.
  split; [|reflexivity].
  apply (prefix_append (String "010" "[")
           (Text.upper cat ++ "] - Total: $" ++ Float.fmt_2f amt ++ " ("
            ++ Text.str_int count ++ " entries)")).
Qed.

Lemma subcategory_is_subcategory sub amt :
  is_heading_line (subcategory_line sub amt) = false
  /\ is_subcategory_line (subcategory_line sub amt) = true.
Proof.
  split; [reflexivity|].
  unfold is_subcategory_line, subcategory_line. apply prefix_append.
Qed.

(** The headings of the loop are those of the rows that open a category. *)
Lemma summary_lines_headings cur (gs : list Sqlite.Group) :
  filter is_heading_line (summary_lines cur gs)
  = map heading_of (openers cur gs).
Proof.
  revert cur. induction gs as [|[[[c s] t] n] gs IH]; intros cur;
    [reflexivity|].
  cbn [summary_lines openers group_category group_key fst].
  rewrite !filter_app, IH.
  assert (S : filter is_heading_line
                (if Text.truthy s
                 then [subcategory_line (Text.or_else s "") t] else [])
              = []).
  { destruct (Text.truthy s); [|reflexivity]. cbn [filter].
    now rewrite (proj1 (subcategory_is_subcategory _ _)). }
  rewrite S. cbn [app].
  destruct cur as [c0|]; [destruct (String.eqb c c0)|]; cbn [negb filter];
    rewrite ?(proj1 (heading_is_heading _ _ _)); reflexivity.
Qed.

(** Each row with a non-empty subcategory has its line, in order. *)
Lemma summary_lines_subcategories cur (gs : list Sqlite.Group) :
  filter is_subcategory_line (summary_lines cur gs)
  = map subcategory_line_of
      (filter (fun g => Text.truthy (snd (group_key g))) gs).
Proof.
  revert cur. induction gs as [|[[[c s] t] n] gs IH]; intros cur;
    [reflexivity|].
  cbn [summary_lines group_key fst snd filter].
  rewrite !filter_app, IH.
  assert (H : filter is_subcategory_line
                (if match cur with
                    | Some c0 => negb (String.eqb c c0)
                    | None => true
                    end
                 then [category_heading c t n] else [])
              = []).
  { destruct (match cur with
              | Some c0 => negb (String.eqb c c0)
              | None => true
              end); [|reflexivity].
    cbn [filter]. now rewrite (proj2 (heading_is_heading _ _ _)). }
  rewrite H. cbn [app].
  destruct (Text.truthy s); cbn [filter map]; [|reflexivity].
  now rewrite (proj2 (subcategory_is_subcategory _ _)).
Qed.

(** Among rows in ascending order of category, the rows that open a
    category name each category once. *)
Lemma openers_categories (gs : list Sqlite.Group) :
  StronglySorted by_category gs ->
  forall cur,
    (forall c, cur = Some c ->
               Forall (fun g => category_le c (group_category g)) gs) ->
    NoDup (map group_category (openers cur gs))
    /\ (forall c, In c (map group_category (openers cur gs))
                  <-> In c (map group_category gs) /\ cur <> Some c)
    /\ incl (openers cur gs) gs.
Proof.
  induction 1 as [|g gs S IH A]; intros cur L.
  - cbn. repeat split; try constructor; try tauto. intros x [].
  - assert (L' : forall c, Some (group_category g) = Some c ->
                   Forall (fun g' => category_le c (group_category g')) gs).
    { intros c E. injection E as <-. exact A. }
    destruct (IH (Some (group_category g)) L') as (D & M & I).
    assert (Open : NoDup (map group_category
                            (g :: openers (Some (group_category g)) gs))).
    { cbn [map]. constructor; [|exact D]. intros H. apply M in H.
      now destruct H as [_ H]. }
    cbn [openers]. destruct cur as [c0|].
    + specialize (L c0 eq_refl). inversion L as [|? ? Lg Lgs]; subst.
      destruct (String.eqb_spec (group_category g) c0) as [E|E].
      * split; [exact D|split].
        -- intros c. rewrite M. cbn [map In]. rewrite E.
           split; [intros [H N]; split; auto | intros [[H|H] N]; split; auto].
           congruence.
        -- intros x Hx. right. now apply I.
      * split; [exact Open|split].
        -- intros c. cbn [map In]. rewrite M. split.
           ++ intros [H|[H N]].
              ** subst c. split; [now left | congruence].
              ** split; [now right|]. intros E'. injection E' as E'.
                 apply in_map_iff in H. destruct H as (g' & Hc & Hg').
                 rewrite Forall_forall in A. specialize (A g' Hg').
                 apply (category_lt_le_ne c0 (group_category g)
                          (group_category g')); auto.
                 congruence.
           ++ intros [[H|H] N]; auto.
              destruct (String.eqb_spec (group_category g) c); auto.
              right. split; auto. congruence.
        -- intros x [<-|Hx]; [now left | right; now apply I].
    + split; [exact Open|split].
      * intros c. cbn [map In]. rewrite M. split.
        -- intros [H|[H _]]; split; auto; discriminate.
        -- intros [[H|H] _]; auto.
           destruct (String.eqb_spec (group_category g) c); auto.
           right. split; auto. congruence.
      * intros x [<-|Hx]; [now left | right; now apply I].
Qed.

End SummaryLineFacts.

(* ------------------------------------------------------------------ *)
(** ** The summary report *)

Lemma summary_query_empty start_date end_date (rows : list Row) :
  summary_query start_date end_date rows = []
  <-> filter (satisfies None start_date end_date) rows = [].
Proof.
  rewrite summary_query_selects.
  set (sel := filter (satisfies None start_date end_date) rows).
  pose proof (group_by_count_sum sel) as C.
  pose proof (order_groups_permutation (Sqlite.group_by sel)) as P.
  split; intros E.
  - rewrite E in P. apply Permutation_nil in P. rewrite P in C.
    destruct sel; [reflexivity | discriminate C].
  - subst sel. rewrite E. reflexivity.
Qed.

(** X1. On a working table [get_summary] answers "No data recorded for
    the selected period." exactly when no record lies within the supplied
    date bounds.  Otherwise it answers with the report: a title naming the
    bounds ("Beginning" and "Now" for an absent or empty one), the total of
    the records within the bounds, a rule of 40 dashes, and the category
    lines. *)
Theorem summary_reports_or_says_no_data :
  forall (start_date end_date : option string) (rows : list Row) (seq : Z),
    let selected := filter (satisfies None start_date end_date) rows in
    let answer := fst (get_summary start_date end_date (Table rows seq)) in
    (answer = "No data recorded for the selected period."
     <-> selected = [])
    /\ (selected <> [] ->
        answer
        = Text.join (String "010" "")
            (("Expense Summary Report ("
              ++ Text.or_else start_date "Beginning" ++ " to "
              ++ Text.or_else end_date "Now" ++ ")")
             :: ("TOTAL SPEND: $"
                 ++ Float.fmt_2f (or_zero (Some (running_sum selected))))
             :: Text.times "-" 40
             :: summary_lines None (summary_query start_date end_date rows))).
Proof.
  intros start_date end_date rows seq selected answer.
  assert (R : selected <> [] ->
              answer
              = Text.join (String "010" "")
                  (("Expense Summary Report ("
                    ++ Text.or_else start_date "Beginning" ++ " to "
                    ++ Text.or_else end_date "Now" ++ ")")
                   :: ("TOTAL SPEND: $"
                       ++ Float.fmt_2f
                            (or_zero (Some (running_sum selected))))
                   :: Text.times "-" 40
                   :: summary_lines None
                        (summary_query start_date end_date rows))).
  { intros N. unfold answer. rewrite get_summary_on_table. cbn [fst].
    destruct (summary_query start_date end_date rows) as [|g gs] eqn:Q.
    - apply summary_query_empty in Q. contradiction.
    - unfold total_query. rewrite filter_summary_conds. fold selected.
      destruct selected; [contradiction | reflexivity]. }
  split; [split|exact R].
  - intros A. destruct selected as [|r l] eqn:E; [reflexivity|].
    rewrite R in A by discriminate. discriminate A.
  - intros E. unfold answer. rewrite get_summary_on_table. cbn [fst].
    apply summary_query_empty in E. fold selected in E. now rewrite E.
Qed.

Lemma summary_reports_or_says_no_data_witness :
  fst (get_summary (Some "2024-01-10") None Sample.dated_store)
  = Text.join (String "010" "")
      [ "Expense Summary Report (2024-01-10 to Now)";
        "TOTAL SPEND: $47.99";
        "----------------------------------------";
        "";
        "[FOOD] - Total: $7.99 (1 entries)";
        "  └─ Grocery: $7.99";
        "";
        "[RENT] - Total: $40.00 (1 entries)" ].
Proof.
  refine (eq_trans
            (proj2 (summary_reports_or_says_no_data (Some "2024-01-10") None
                      (rows_of Sample.dated_store) 3) _) _).
  - vm_compute. discriminate.
  - vm_compute. reflexivity.
Defined.

(** X2. The grouped query of [get_summary] has one row for each
    (category, subcategory) pair found among the records within the
    bounds, an absent subcategory being a pair of its own: the row's count
    is the number of these records and its sum is their amounts added in
    table order; no pair has two rows, and the counts add up to the number
    of records within the bounds. *)
Theorem summary_groups_partition_records :
  forall (start_date end_date : option string) (rows : list Row),
    let selected := filter (satisfies None start_date end_date) rows in
    let groups := summary_query start_date end_date rows in
    NoDup (map group_key groups)
    /\ (forall k total count,
           In (k, total, count) groups
           <-> members k selected <> []
               /\ total = running_sum (members k selected)
               /\ count = Z.of_nat (List.length (members k selected)))
    /\ count_sum groups = Z.of_nat (List.length selected).
Proof.
  intros start_date end_date rows selected groups.
  destruct (summary_query_grouped start_date end_date rows) as (D & G & K).
  fold selected in G, K. fold groups in D, G, K.
  split; [exact D|split].
  - intros k total count. split.
    + intros H. apply (G _ H).
    + intros (N & -> & ->).
      destruct (members k selected) as [|r l] eqn:E; [contradiction|].
      assert (Hr : In r (members k selected)) by (rewrite E; now left).
      apply members_in in Hr. destruct Hr as [Hr <-].
      apply K, in_map_iff in Hr. destruct Hr as ([[k' t'] n'] & Ek & Hg).
      cbn [group_key fst] in Ek.
      destruct (G _ Hg) as (_ & S & C).
      cbn [group_key group_sum group_count fst snd] in S, C.
      rewrite Ek, E in S, C. rewrite <- S, <- C, <- Ek. exact Hg.
  - unfold groups. rewrite summary_query_selects.
    rewrite (count_sum_permutation _ _ (order_groups_permutation _)).
    apply group_by_count_sum.
Qed.

(** X3. In the report of [get_summary] every category that has a record
    within the bounds gets exactly one heading line, and no other heading
    line is written: the heading lines are those of group rows [heads] of
    the query, whose categories are pairwise distinct and are the
    categories of the records within the bounds. *)
Theorem summary_has_one_heading_per_category :
  forall (start_date end_date : option string) (rows : list Row),
    let selected := filter (satisfies None start_date end_date) rows in
    let groups := summary_query start_date end_date rows in
    exists heads : list Sqlite.Group,
      filter is_heading_line (summary_lines None groups)
      = map heading_of heads
      /\ incl heads groups
      /\ NoDup (map group_category heads)
      /\ forall c,
           In c (map group_category heads)
           <-> exists r, In r selected /\ Sqlite.category r = c.
Proof.
  intros start_date end_date rows selected groups.
  destruct (summary_query_grouped start_date end_date rows) as (D & G & K).
  fold selected in G, K. fold groups in D, G, K.
  assert (S : StronglySorted by_category groups).
  { unfold groups. rewrite summary_query_selects.
    apply order_groups_by_category. }
  destruct (openers_categories groups S None) as (N & M & I);
    [discriminate|].
  exists (openers None groups).
  split; [apply summary_lines_headings|split; [exact I|split; [exact N|]]].
  intros c. rewrite M. split.
  - intros [H _]. apply in_map_iff in H. destruct H as (g & <- & Hg).
    destruct (G g Hg) as (Ne & _ & _).
    destruct (members (group_key g) selected) as [|r l] eqn:E;
      [contradiction|].
    assert (Hr : In r (members (group_key g) selected))
      by (rewrite E; now left).
    apply members_in in Hr. destruct Hr as [Hr Ek].
    exists r. split; [exact Hr|].
    unfold group_category. now rewrite <- Ek.
  - intros (r & Hr & <-). split; [|discriminate].
    apply K, in_map_iff in Hr. destruct Hr as (g & Ek & Hg).
    apply in_map_iff. exists g. split; [|exact Hg].
    unfold group_category. now rewrite Ek.
Qed.

(** X4. In the report of [get_summary] the subcategory lines are, in the
    order of the query, one line for each group row whose subcategory is
    a non-empty text, showing that subcategory and the sum of the group;
    a group whose subcategory is absent or empty has no line of its own. *)
Theorem summary_lists_named_subcategories :
  forall (start_date end_date : option string) (rows : list Row),
    let groups := summary_query start_date end_date rows in
    filter is_subcategory_line (summary_lines None groups)
    = map subcategory_line_of
        (filter (fun g => Text.truthy (snd (group_key g))) groups).
Proof.
  intros start_date end_date rows groups.
  apply summary_lines_subcategories.
Qed.

(* ------------------------------------------------------------------ *)
(** ** More on listings *)

Section ListingFacts.

Lemma limit_nil {A} (n : Z) (l : list A) :
  Sqlite.limit n l = [] <-> n = 0 \/ l = [].
Proof.
  unfold Sqlite.limit. destruct (Z.ltb_spec n 0) as [L|L].
  - split; [auto | intros [E|E]; [lia | exact E]].
  - destruct l as [|x l].
    + rewrite firstn_nil. tauto.
    + destruct (Z.to_nat n) eqn:E; cbn [firstn].
      * split; [intros _; left; lia | reflexivity].
      * split; [discriminate | intros [H|H]; [lia | discriminate]].
Qed.

Lemma order_by_nil (rows : list Row) :
  Sqlite.order_by_date_id_desc rows = [] <-> rows = [].
Proof.
  pose proof (order_by_permutation rows) as P. split; intros E.
  - rewrite E in P. now apply Permutation_sym, Permutation_nil in P.
  - subst rows. reflexivity.
Qed.

Lemma list_render_rows (r : Row) (rs : list Row) :
  list_render (r :: rs) <> "No expenses found matching the criteria.".
Proof.
  assert (H : exists rest, list_header = String "I" rest)
    by (eexists; vm_compute; reflexivity).
  destruct H as [rest H].
  unfold list_render, Text.join. cbn [map String.concat].
  rewrite H. cbn [append]. discriminate.
Qed.

Lemma filter_none {A} (f : A -> bool) (l : list A) :
  (forall x, In x l -> f x = false) -> filter f l = [].
Proof.
  induction l as [|x l IH]; intros H; [reflexivity|].
  cbn [filter]. rewrite (H x) by now left. apply IH. intros y Hy.
  apply H. now right.
Qed.

Lemma string_leb_le (a b : string) :
  String.leb a b = true <-> category_le a b.
Proof.
  unfold String.leb, category_le.
  destruct (String.compare a b); split; congruence.
Qed.

(** No date lies between a start and an earlier end. *)
Lemma crossed_bounds category (s e : string) (r : Row) :
  s <> "" -> e <> "" -> String.ltb e s = true ->
  satisfies category (Some s) (Some e) r = false.
Proof.
  intros Ns Ne L. unfold satisfies.
  destruct s as [|s0 s]; [contradiction|].
  destruct e as [|e0 e]; [contradiction|].
  cbn [when_supplied].
  destruct (String.leb (String s0 s) (Sqlite.date r)) eqn:A;
    [|now rewrite andb_false_r].
  destruct (String.leb (Sqlite.date r) (String e0 e)) eqn:B;
    [|now rewrite andb_false_r].
  exfalso. apply string_leb_le in A, B.
  pose proof (category_le_trans _ _ _ A B) as C. apply C.
  unfold String.ltb in L. rewrite String.compare_antisym.
  destruct (String.compare (String e0 e) (String s0 s)); try discriminate.
  reflexivity.
Qed.

Lemma firstn_prefix {A} (n m : nat) (l : list A) :
  (n <= m)%nat -> exists rest, firstn m l = (firstn n l ++ rest)%list.
Proof.
  intros H. exists (skipn n (firstn m l)).
  rewrite <- (firstn_skipn n (firstn m l)) at 1. f_equal.
  rewrite firstn_firstn. f_equal. lia.
Qed.

End ListingFacts.

(** X5. On a working table, with a [limit] within the 64-bit range,
    [list_expenses] answers "No expenses found matching the criteria."
    exactly when [limit] is 0 or no record satisfies the supplied
    filters. *)
Theorem listing_says_none_found_iff :
  forall (category start_date end_date : option string) (limit : Z)
         (rows : list Row) (seq : Z),
    Sqlite.INT64_MIN <= limit <= Sqlite.INT64_MAX ->
    (fst (list_expenses category start_date end_date limit (Table rows seq))
     = "No expenses found matching the criteria."
     <-> limit = 0
         \/ filter (satisfies category start_date end_date) rows = []).
Proof.
  intros category start_date end_date limit rows seq F.
  rewrite list_expenses_on_table by now apply fits_int64_range.
  cbn [fst].
  rewrite <- order_by_nil, <- limit_nil, <- list_query_selects.
  destruct (list_query category start_date end_date limit rows) as [|r rs].
  - split; reflexivity.
  - split; [intros H; now apply list_render_rows in H | discriminate].
Qed.

Lemma listing_says_none_found_iff_witness :
  fst (list_expenses (Some "Travel") None None 20 Sample.dated_store)
  = "No expenses found matching the criteria."
  <-> 20 = 0
      \/ filter (satisfies (Some "Travel") None None)
           (rows_of Sample.dated_store) = [].
Proof.
  apply (listing_says_none_found_iff (Some "Travel") None None 20
           (rows_of Sample.dated_store) 3).
  unfold Sqlite.INT64_MIN, Sqlite.INT64_MAX. lia.
Defined.

(** X6. When both date bounds are supplied and the end is before the
    start, nothing lies between them: [list_expenses] finds no expenses,
    whatever the category and whatever the [limit] within the 64-bit
    range, and [get_summary] has no data. *)
Theorem crossed_date_bounds_select_nothing :
  forall (category : option string) (start_date end_date : string)
         (limit : Z) (rows : list Row) (seq : Z),
    start_date <> "" -> end_date <> "" ->
    String.ltb end_date start_date = true ->
    Sqlite.INT64_MIN <= limit <= Sqlite.INT64_MAX ->
    fst (list_expenses category (Some start_date) (Some end_date) limit
           (Table rows seq))
    = "No expenses found matching the criteria."
    /\ fst (get_summary (Some start_date) (Some end_date) (Table rows seq))
       = "No data recorded for the selected period.".
Proof.
  intros category start_date end_date limit rows seq Ns Ne L F.
  assert (E : forall c,
             filter (satisfies c (Some start_date) (Some end_date)) rows = []).
  { intros c. apply filter_none. intros r _. now apply crossed_bounds. }
  split.
  - rewrite list_expenses_on_table by now apply fits_int64_range.
    rewrite list_query_selects, E. cbn [fst].
    unfold Sqlite.limit. destruct (limit <? 0); [reflexivity|].
    now rewrite firstn_nil.
  - rewrite get_summary_on_table. cbn [fst].
    now rewrite (proj2 (summary_query_empty _ _ _) (E None)).
Qed.

Lemma crossed_date_bounds_select_nothing_witness :
  fst (list_expenses None (Some "2024-02-01") (Some "2024-01-01") 20
         Sample.dated_store)
  = "No expenses found matching the criteria."
  /\ fst (get_summary (Some "2024-02-01") (Some "2024-01-01")
            Sample.dated_store)
     = "No data recorded for the selected period.".
Proof.
  apply (crossed_date_bounds_select_nothing None "2024-02-01" "2024-01-01" 20
           (rows_of Sample.dated_store) 3);
    [discriminate | discriminate | reflexivity
     | unfold Sqlite.INT64_MIN, Sqlite.INT64_MAX; lia].
Defined.

(** X7. For a limit [n] that is not negative and at most 2^63 - 1 the
    listing has as many rows as the limit allows and the matching records
    provide, the smaller of the two; and it is the beginning of the
    listing under a larger limit [m] up to 2^63 - 1, or under a negative
    one down to -2^63. *)
Theorem listing_grows_with_limit :
  forall (category start_date end_date : option string) (n m : Z)
         (rows : list Row) (seq : Z),
    0 <= n <= Sqlite.INT64_MAX ->
    n <= m <= Sqlite.INT64_MAX \/ Sqlite.INT64_MIN <= m < 0 ->
    exists listed rest,
      fst (list_expenses category start_date end_date n (Table rows seq))
      = list_render listed
      /\ fst (list_expenses category start_date end_date m (Table rows seq))
         = list_render (listed ++ rest)
      /\ Z.of_nat (List.length listed)
         = Z.min n
             (Z.of_nat
                (List.length
                   (filter (satisfies category start_date end_date) rows))).
Proof.
  intros category start_date end_date n m rows seq N M.
  rewrite !list_expenses_on_table
    by (apply fits_int64_range;
        unfold Sqlite.INT64_MIN, Sqlite.INT64_MAX in *; lia).
  cbn [fst]. rewrite !list_query_selects.
  set (sel := filter (satisfies category start_date end_date) rows).
  pose proof (Permutation_length (order_by_permutation sel)) as P.
  exists (Sqlite.limit n (Sqlite.order_by_date_id_desc sel)).
  unfold Sqlite.limit. destruct (Z.ltb_spec n 0) as [L|L]; [lia|].
  assert (R : exists rest,
             (if m <? 0
              then Sqlite.order_by_date_id_desc sel
              else firstn (Z.to_nat m) (Sqlite.order_by_date_id_desc sel))
             = (firstn (Z.to_nat n) (Sqlite.order_by_date_id_desc sel)
                ++ rest)%list).
  { destruct (Z.ltb_spec m 0) as [L'|L'].
    - exists (skipn (Z.to_nat n) (Sqlite.order_by_date_id_desc sel)).
      now rewrite firstn_skipn.
    - apply firstn_prefix. lia. }
  destruct R as [rest R]. exists rest. rewrite R.
  split; [reflexivity|split; [reflexivity|]].
  rewrite length_firstn. lia.
Qed.

Lemma listing_grows_with_limit_witness :
  exists listed rest,
    fst (list_expenses None None None 1 Sample.dated_store)
    = list_render listed
    /\ fst (list_expenses None None None 3 Sample.dated_store)
       = list_render (listed ++ rest)
    /\ Z.of_nat (List.length listed)
       = Z.min 1
           (Z.of_nat
              (List.length
                 (filter (satisfies None None None)
                    (rows_of Sample.dated_store)))).
Proof.
  apply (listing_grows_with_limit None None None 1 3
           (rows_of Sample.dated_store) 3);
    unfold Sqlite.INT64_MIN, Sqlite.INT64_MAX; lia.
Defined.

Section NewestFirstFacts.

Lemma firstn_one_head {A} (x : A) (l : list A) :
  In x (firstn 1 l) -> exists rest, l = x :: rest.
Proof.
  destruct l as [|y l]; cbn; [intros []|].
  intros [->|[]]. now exists l.
Qed.

Lemma limit_keeps_head {A} (n : Z) (x : A) (l : list A) :
  1 <= n \/ n < 0 -> exists rest, Sqlite.limit n (x :: l) = x :: rest.
Proof.
  intros H. unfold Sqlite.limit. destruct (Z.ltb_spec n 0) as [L|L].
  - now exists l.
  - destruct (Z.to_nat n) as [|k] eqn:E; [lia|].
    cbn [firstn]. now exists (firstn k l).
Qed.

Lemma sum_amount_running (rows : list Row) :
  rows <> [] -> Sqlite.sum_amount rows = Some (running_sum rows).
Proof. destruct rows; [contradiction | reflexivity]. Qed.

End NewestFirstFacts.

(** X8. When a record with an amount above zero is added to a working
    table that holds no record of a later date, the listing with no
    filters and a limit from 1 to 2^63 - 1, or a negative one down to
    -2^63, shows the new record first, right under the header. *)
Theorem newest_record_is_listed_first :
  forall (today : string) (amount : float) (category : string)
         (subcategory note date : option string) (limit : Z)
         (rows : list Row) (seq : Z),
    Float.ltb Float.zero amount = true ->
    Z.max seq (Sqlite.max_rowid rows) < Sqlite.INT64_MAX ->
    1 <= limit <= Sqlite.INT64_MAX \/ Sqlite.INT64_MIN <= limit < 0 ->
    (forall r, In r rows ->
               dated_after (Text.or_else date today) r = false) ->
    let added :=
      add_expense today amount category subcategory note date (Table rows seq)
    in
    let stored :=
      Sqlite.mkRow (next_id rows seq) amount (Text.or_else date today)
        category subcategory note in
    exists rest,
      fst (list_expenses None None None limit (snd added))
      = Text.join (String "010" "")
          (list_header :: Text.times "-" 80 :: list_line stored
           :: map list_line rest).
Proof.
  intros today amount category subcategory note date limit rows seq P F L
         Latest added stored.
  destruct (positive_passes_validation amount P) as [V N].
  unfold added. rewrite add_expense_stores by assumption. cbn [snd].
  fold stored.
  rewrite list_expenses_on_table
    by (apply fits_int64_range;
        unfold Sqlite.INT64_MIN, Sqlite.INT64_MAX in *; lia).
  cbn [fst]. rewrite list_query_selects, filter_unfiltered.
  assert (H : In stored
                (firstn 1 (Sqlite.order_by_date_id_desc (rows ++ [stored])))).
  { apply new_row_listed.
    - intros y Hy. apply max_rowid_bound in Hy.
      unfold stored, next_id. cbn [Sqlite.id]. lia.
    - unfold stored. cbn [Sqlite.date]. rewrite filter_none by exact Latest.
      cbn. lia. }
  apply firstn_one_head in H. destruct H as [tl ->].
  destruct (limit_keeps_head limit stored tl) as [rest ->]; [lia|].
  now exists rest.
Qed.

Lemma newest_record_is_listed_first_witness :
  exists rest,
    fst (list_expenses None None None 20
           (snd (add_expense Sample.today (Float.cents 1999) "Books" None
                   (Some "novel") None Sample.dated_store)))
    = Text.join (String "010" "")
        (list_header :: Text.times "-" 80
         :: list_line
              (Sqlite.mkRow 4 (Float.cents 1999) Sample.today "Books" None
                 (Some "novel"))
         :: map list_line rest).
Proof.
  apply (newest_record_is_listed_first Sample.today (Float.cents 1999)
           "Books" None (Some "novel") None 20 (rows_of Sample.dated_store) 3).
  - reflexivity.
  - vm_compute. reflexivity.
  - left. unfold Sqlite.INT64_MAX. lia.
  - intros r H. vm_compute in H.
    repeat (destruct H as [<-|H]; [vm_compute; reflexivity|]). destruct H.
Defined.

(* ------------------------------------------------------------------ *)
(** ** The lifetime total *)

(** X9. On a working table the lifetime-summary resource answers with
    the store location and the sum of all amounts, "0.00" for an empty
    table; after a successful [add_expense] of an amount above zero it
    shows the former running sum plus that amount. *)
Theorem lifetime_total_grows_by_amount :
  forall (today db_path : string) (amount : float) (category : string)
         (subcategory note date : option string) (rows : list Row) (seq : Z),
    Float.ltb Float.zero amount = true ->
    Z.max seq (Sqlite.max_rowid rows) < Sqlite.INT64_MAX ->
    fst (get_resource_summary db_path (Table rows seq))
    = Returned
        ("Database: " ++ db_path ++ String "010" ""
         ++ "Total lifetime spend tracked: $"
         ++ match rows with
            | [] => "0.00"
            | _ => Float.fmt_2f (or_zero (Some (running_sum rows)))
            end)
    /\ fst (get_resource_summary db_path
              (snd (add_expense today amount category subcategory note date
                      (Table rows seq))))
       = Returned
           ("Database: " ++ db_path ++ String "010" ""
            ++ "Total lifetime spend tracked: $"
            ++ Float.fmt_2f
                 (or_zero (Some (Float.add (running_sum rows) amount)))).
Proof.
  intros today db_path amount category subcategory note date rows seq P F.
  destruct (positive_passes_validation amount P) as [V N]. split.
  - destruct rows; reflexivity.
  - rewrite add_expense_stores by assumption. cbn [snd].
    unfold get_resource_summary, unguarded, Sqlite.bind, Sqlite.select,
      Sqlite.ret.
    cbn [fst]. rewrite sum_amount_running, running_sum_snoc.
    + reflexivity.
    + intros E. now apply app_eq_nil in E as [_ E].
Qed.

Lemma lifetime_total_grows_by_amount_witness :
  fst (get_resource_summary Sample.db_path
         (snd (add_expense Sample.today (Float.cents 250) "Food" None None
                 None Sample.summary_store)))
  = Returned
      ("Database: /tmp/expense_tracker/expenses.db" ++ String "010" ""
       ++ "Total lifetime spend tracked: $47.50").
Proof.
  refine (eq_trans
            (proj2 (lifetime_total_grows_by_amount Sample.today Sample.db_path
                      (Float.cents 250) "Food" None None None
                      (rows_of Sample.summary_store) 3 _ _)) _).
  - reflexivity.
  - vm_compute. reflexivity.
  - vm_compute. reflexivity.
Defined.

(** X10. On a table that holds records, the total that [get_summary]
    reports when called without bounds is the figure of the
    lifetime-summary resource. *)
Theorem summary_total_is_lifetime_total :
  forall (db_path : string) (rows : list Row) (seq : Z),
    rows <> [] ->
    exists total : float,
      fst (get_resource_summary db_path (Table rows seq))
      = Returned
          ("Database: " ++ db_path ++ String "010" ""
           ++ "Total lifetime spend tracked: $" ++ Float.fmt_2f total)
      /\ fst (get_summary None None (Table rows seq))
         = Text.join (String "010" "")
             ("Expense Summary Report (Beginning to Now)"
              :: ("TOTAL SPEND: $" ++ Float.fmt_2f total)
              :: Text.times "-" 40
              :: summary_lines None (summary_query None None rows)).
Proof.
  intros db_path rows seq N.
  exists (or_zero (Sqlite.sum_amount rows)). split; [reflexivity|].
  rewrite get_summary_on_table. cbn [fst].
  destruct (summary_query None None rows) as [|g gs] eqn:Q.
  - apply summary_query_empty in Q. rewrite filter_unfiltered in Q.
    contradiction.
  - unfold total_query. rewrite filter_summary_conds, filter_unfiltered.
    reflexivity.
Qed.

Lemma summary_total_is_lifetime_total_witness :
  exists total : float,
    fst (get_resource_summary Sample.db_path Sample.summary_store)
    = Returned
        ("Database: " ++ Sample.db_path ++ String "010" ""
         ++ "Total lifetime spend tracked: $" ++ Float.fmt_2f total)
    /\ fst (get_summary None None Sample.summary_store)
       = Text.join (String "010" "")
           ("Expense Summary Report (Beginning to Now)"
            :: ("TOTAL SPEND: $" ++ Float.fmt_2f total)
            :: Text.times "-" 40
            :: summary_lines None
                 (summary_query None None (rows_of Sample.summary_store))).
Proof.
  apply (summary_total_is_lifetime_total Sample.db_path
           (rows_of Sample.summary_store) 3).
  vm_compute. discriminate.
Defined.

(* ------------------------------------------------------------------ *)
(** ** Ids of a table filled by [add_expense] *)

Section IdFacts.

Variable today : string.

Lemma ids_up_to_snoc (n : nat) :
  ids_up_to (S n) = (ids_up_to n ++ [Z.of_nat n + 1])%list.
Proof.
  unfold ids_up_to. rewrite seq_S, map_app. cbn [map]. do 2 f_equal. lia.
Qed.

Lemma counted_add (a : AddArgs) (db : Store) :
  counted db -> counted (snd (call_add today a db)).
Proof.
  intros C. unfold call_add.
  destruct (add_expense_result today (arg_amount a) (arg_category a)
              (arg_subcategory a) (arg_note a) (arg_date a) db)
    as [V|e V|rows seq E V N F]; cbn [snd]; auto.
  destruct C as (rows' & seq' & E' & I & H). rewrite E in E'.
  injection E' as <- <-. subst db.
  eexists _, _. split; [reflexivity|].
  unfold next_id, high_water in *.
  rewrite max_rowid_snoc, map_app, length_app, I. cbn [map Sqlite.id List.length].
  rewrite Nat.add_1_r, ids_up_to_snoc, H.
  pose proof (max_rowid_nonneg rows). split; [reflexivity | lia].
Qed.

Lemma counted_run (calls : list AddArgs) (db : Store) :
  counted db -> counted (run_adds today calls db).
Proof.
  revert db. induction calls as [|a calls IH]; intros db C; cbn; auto.
  apply IH, counted_add, C.
Qed.

Lemma ids_up_to_nodup (n : nat) : NoDup (ids_up_to n).
Proof.
  induction n as [|n IH]; [constructor|].
  rewrite ids_up_to_snoc. apply nodup_snoc; [exact IH|].
  unfold ids_up_to. intros H. apply in_map_iff in H.
  destruct H as (k & E & Hk). apply in_seq in Hk. lia.
Qed.

End IdFacts.

(** X11. Ids are unique.  In a table filled from empty by calls of
    [add_expense], successful or not, the ids of the rows are 1, 2, ...
    up to the number of rows, in table order; and on any working table
    whose ids are pairwise distinct they are still so after a call. *)
Theorem ids_are_unique :
  forall today : string,
    (forall calls : list AddArgs,
        let rows := rows_of (run_adds today calls (Table [] 0)) in
        map Sqlite.id rows = ids_up_to (List.length rows)
        /\ NoDup (map Sqlite.id rows))
    /\ (forall (rows : list Row) (seq : Z) (a : AddArgs),
           NoDup (map Sqlite.id rows) ->
           NoDup
             (map Sqlite.id
                (rows_of (snd (call_add today a (Table rows seq)))))).
Proof.
  intros today. split.
  - intros calls rows.
    assert (C : counted (run_adds today calls (Table [] 0))).
    { apply counted_run. exists [], 0. repeat split. }
    destruct C as (rows' & seq' & E & I & _).
    unfold rows. rewrite E. cbn [rows_of]. split; [exact I|].
    rewrite I. apply ids_up_to_nodup.
  - intros rows seq a D. unfold call_add.
    destruct (add_expense_result today (arg_amount a) (arg_category a)
                (arg_subcategory a) (arg_note a) (arg_date a)
                (Table rows seq))
      as [V|e V|rows' seq' E V N F]; cbn [snd rows_of]; auto.
    injection E as <- <-. rewrite map_app. cbn [map Sqlite.id].
    apply nodup_snoc; [exact D|].
    intros H. apply in_map_iff in H. destruct H as (r & E & Hr).
    apply max_rowid_bound in Hr. unfold next_id in E. lia.
Qed.

Lemma ids_are_unique_witness :
  NoDup
    (map Sqlite.id
       (rows_of
          (snd (call_add Sample.today
                  (mkAdd (Float.of_Z 7) "Food" None None None)
                  (Table (rows_of Sample.dated_store) 3))))).
Proof.
  apply (proj2 (ids_are_unique Sample.today) (rows_of Sample.dated_store) 3
           (mkAdd (Float.of_Z 7) "Food" None None None)).
  vm_compute. repeat constructor; cbn; intuition discriminate.
Defined.

(* ------------------------------------------------------------------ *)
(** ** Initialising the store *)

(** X12. [init_db] can be run any number of times: a second run changes
    nothing and no run loses a row.  A database without the table gets an
    empty one, a table that exists is kept with all its rows and its id
    counter, and when the database cannot be opened the error is raised,
    not caught, and the database is left as it is. *)
Theorem init_db_is_idempotent :
  (forall db : Store,
      snd (init_db (snd (init_db db))) = snd (init_db db)
      /\ rows_of (snd (init_db db)) = rows_of db)
  /\ init_db NoTable = (Returned tt, Table [] 0)
  /\ (forall rows seq,
         init_db (Table rows seq) = (Returned tt, Table rows seq))
  /\ (forall e, init_db (Unavailable e) = (Raised e, Unavailable e)).
Proof.
  repeat split; destruct db; reflexivity.
Qed.

(* ------------------------------------------------------------------ *)
(** ** The categories resource *)

Section CategoryFacts.

Lemma string_leb_transitive :
  Transitive (fun a b => is_true (String.leb a b)).
Proof.
  intros a b c H1 H2. unfold is_true in *.
  rewrite string_leb_le in *. eapply category_le_trans; eauto.
Qed.

Lemma sorted_strongly (l : list string) :
  StronglySorted (fun a b => is_true (String.leb a b)) (sorted l).
Proof. apply StringSort.StronglySorted_sort, string_leb_transitive. Qed.

(** Two ascending lists with the same elements are the same list. *)
Lemma ascending_unique (l l' : list string) :
  StronglySorted (fun a b => is_true (String.leb a b)) l ->
  StronglySorted (fun a b => is_true (String.leb a b)) l' ->
  Permutation l l' -> l = l'.
Proof.
  intros S. revert l'.
  induction S as [|x l S IH A]; intros l' S' P.
  - now apply Permutation_nil in P.
  - destruct S' as [|y l' S' A'].
    + now apply Permutation_sym, Permutation_nil in P.
    + rewrite Forall_forall in A, A'.
      assert (E : x = y).
      { assert (Hy : In y (x :: l))
          by (eapply Permutation_in;
              [apply Permutation_sym, P | now left]).
        assert (Hx : In x (y :: l'))
          by (eapply Permutation_in; [exact P | now left]).
        destruct Hy as [Hy|Hy]; [exact Hy|].
        destruct Hx as [Hx|Hx]; [now symmetry|].
        apply String.leb_antisym; [now apply A | now apply A']. }
      subst y. f_equal. apply IH; [exact S'|].
      now apply Permutation_cons_inv in P.
Qed.

Lemma sorted_permutation (l l' : list string) :
  Permutation l l' -> sorted l = sorted l'.
Proof.
  intros P. apply ascending_unique; try apply sorted_strongly.
  eapply Permutation_trans;
    [apply Permutation_sym, StringSort.Permuted_sort|].
  eapply Permutation_trans; [exact P | apply StringSort.Permuted_sort].
Qed.

End CategoryFacts.

(** X13. The text of the categories resource does not depend on the
    order of the configuration: two configurations with the same category
    names and, under each name, the same subcategory names give the same
    text, whatever the order of names and of subcategories in the file. *)
Theorem categories_text_ignores_file_order :
  forall (c1 c2 : Config) (db : Store),
    same_hierarchy c1 c2 ->
    get_categories_and_subcategories (Loaded c1) db
    = get_categories_and_subcategories (Loaded c2) db.
Proof.
  intros c1 c2 db [K L].
  unfold get_categories_and_subcategories, load_categories_config.
  destruct c1 as [|e1 c1], c2 as [|e2 c2].
  - reflexivity.
  - apply Permutation_length in K. discriminate K.
  - apply Permutation_length in K. discriminate K.
  - rewrite (sorted_permutation _ _ K). do 5 f_equal.
    apply flat_map_ext. intros cat.
    now rewrite (sorted_permutation _ _ (L cat)).
Qed.

Lemma categories_text_ignores_file_order_witness :
  get_categories_and_subcategories
    (Loaded [("Food", ["Restaurant"; "Grocery"]); ("Bills", [])]) NoTable
  = get_categories_and_subcategories
      (Loaded [("Bills", []); ("Food", ["Grocery"; "Restaurant"])]) NoTable.
Proof.
  apply categories_text_ignores_file_order. split.
  - apply perm_swap.
  - intros cat. cbn [lookup].
    destruct (String.eqb_spec "Food" cat) as [<-|N].
    + cbn. apply perm_swap.
    + destruct (String.eqb "Bills" cat); apply Permutation_refl.
Defined.


(* ------------------------------------------------------------------ *)
(** ** What an answer of [add_expense] tells *)

Lemma snoc_differs {A} (l : list A) (x : A) : (l ++ [x])%list <> l.
Proof.
  intros E. apply (f_equal (@List.length A)) in E.
  rewrite length_app in E. cbn in E. lia.
Qed.

(** X15. [add_expense] reports success exactly when it has stored a row:
    its answer starts with "Successfully added expense ID " if and only
    if the table has one row more than before, and otherwise the answer
    starts with "Error" and the store is what it was. *)
Theorem add_reports_success_iff_stored :
  forall (today : string) (amount : float) (category : string)
         (subcategory note date : option string) (db : Store),
    let answer :=
      fst (add_expense today amount category subcategory note date db) in
    let db' :=
      snd (add_expense today amount category subcategory note date db) in
    (succeeded answer = true <-> row_count db' = row_count db + 1)
    /\ (succeeded answer = false <-> db' = db)
    /\ (succeeded answer = false -> String.prefix "Error" answer = true).
Proof.
  intros today amount category subcategory note date db answer db'.
  subst answer db'.
  destruct (add_expense_result today amount category subcategory note date
              db) as [V|e V|rows seq E V N F]; cbn [fst snd].
  - rewrite error_not_succeeded_1.
    repeat split; try discriminate; try reflexivity; intros; lia.
  - rewrite error_not_succeeded_2.
    repeat split; try discriminate; try reflexivity; intros; lia.
  - assert (S : succeeded
                  (added_message (next_id rows seq) amount category
                     subcategory (Text.or_else date today)) = true)
      by apply prefix_append.
    rewrite S. subst db. cbn [row_count]. rewrite length_app. cbn [List.length].
    repeat split; try discriminate; intros; try lia.
    exfalso. injection H as H _. now apply snoc_differs in H.
Qed.

Lemma list_expenses_frame category start_date end_date limit db :
  snd (list_expenses category start_date end_date limit db) = db.
Proof.
  unfold list_expenses, try_except, Sqlite.bind, Sqlite.select_with_int.
  destruct db as [e| |rows seq]; try reflexivity.
  destruct (Sqlite.fits_int64 limit); reflexivity.
Qed.

Lemma get_summary_frame start_date end_date db :
  snd (get_summary start_date end_date db) = db.
Proof.
  unfold get_summary, try_except, Sqlite.bind, Sqlite.select.
  destruct db as [e| |rows seq]; try reflexivity.
  destruct (summary_query start_date end_date rows); reflexivity.
Qed.

(** X16. Adding a record that the filters of a query do not select
    changes nothing in what the query shows: an [add_expense], successful
    or not, of a record that does not satisfy the filters leaves the answer
    of [list_expenses] under these filters, and of [get_summary] under
    these date bounds, as it was. *)
Theorem unselected_record_changes_no_answer :
  forall (today : string) (amount : float) (category : string)
         (subcategory note date : option string)
         (only_category start_date end_date : option string) (limit : Z)
         (db : Store),
    let db' :=
      snd (add_expense today amount category subcategory note date db) in
    ((forall i,
         satisfies only_category start_date end_date
           (Sqlite.mkRow i amount (Text.or_else date today) category
              subcategory note) = false) ->
     list_expenses only_category start_date end_date limit db'
     = (fst (list_expenses only_category start_date end_date limit db), db'))
    /\ ((forall i,
            satisfies None start_date end_date
              (Sqlite.mkRow i amount (Text.or_else date today) category
                 subcategory note) = false) ->
        get_summary start_date end_date db'
        = (fst (get_summary start_date end_date db), db')).
Proof.
  intros today amount category subcategory note date only_category
         start_date end_date limit db db'.
  subst db'.
  destruct (add_expense_result today amount category subcategory note date
              db) as [V|e V|rows seq E V N F]; cbn [snd].
  - split; intros _.
    + etransitivity; [apply surjective_pairing|]. f_equal.
      apply list_expenses_frame.
    + etransitivity; [apply surjective_pairing|]. f_equal.
      apply get_summary_frame.
  - split; intros _.
    + etransitivity; [apply surjective_pairing|]. f_equal.
      apply list_expenses_frame.
    + etransitivity; [apply surjective_pairing|]. f_equal.
      apply get_summary_frame.
  - subst db. split; intros H.
    + destruct (Sqlite.fits_int64 limit) eqn:R.
      * rewrite !list_expenses_on_table by exact R. cbn [fst].
        rewrite !list_query_selects, filter_app. cbn [filter].
        now rewrite H, app_nil_r.
      * now rewrite !list_expenses_out_of_range by exact R.
    + rewrite !get_summary_on_table. cbn [fst].
      unfold total_query. rewrite !summary_query_selects.
      rewrite !filter_summary_conds, filter_app. cbn [filter].
      now rewrite H, app_nil_r.
Qed.

Lemma unselected_record_changes_no_answer_witness :
  list_expenses (Some "Food") None None 20
    (snd (add_expense Sample.today (Float.of_Z 12) "Rent" None None None
            Sample.dated_store))
  = (fst (list_expenses (Some "Food") None None 20 Sample.dated_store),
     snd (add_expense Sample.today (Float.of_Z 12) "Rent" None None None
            Sample.dated_store)).
Proof.
  apply (proj1 (unselected_record_changes_no_answer Sample.today
                  (Float.of_Z 12) "Rent" None None None (Some "Food") None
                  None 20 Sample.dated_store)).
  intros i. reflexivity.
Defined.
